(** * circuithelper.utils: the KMZ/KML ingestion pipeline

    A shallow embedding of [circuithelper/utils.py] (archive unwrapping,
    geometry extraction, centroid and path distance) and of the upload
    handler of [circuithelper/views.py] that drives it.

    Conventions of the embedding.
    - Python floats are idealised as exact rationals ([Q]); no statement
      below depends on floating-point rounding.
    - A Python [dict] with string keys is a [gmap string PyVal]; a Python
      [bytes] object is a [string] (a sequence of 8-bit characters).
    - A call that may raise returns a [result]; [try/except Exception] is
      [try_except].
    - The third-party libraries (lxml, fastkml, shapely, pyproj, zipfile's
      directory reader) are not part of the repository: the calls made to
      them are the fields of the interface [Libraries], and nothing is
      assumed about them unless a hypothesis says so.  Imports and the
      construction of the two reference systems and of the transformer
      (constant arguments) are taken to succeed. *)

From Stdlib Require Import QArith Qround.
From stdpp Require Import base gmap strings list.

Set Warnings "-register-all".

(** ** Python values *)

(** A shapely coordinate tuple: two- or three-dimensional. *)
Inductive coord :=
| XY (x y : Q)
| XYZ (x y z : Q).

(** [c[0]] and [c[1]] of a coordinate tuple. *)
Definition c0 (c : coord) : Q := match c with XY x _ | XYZ x _ _ => x end.
Definition c1 (c : coord) : Q := match c with XY _ y | XYZ _ y _ => y end.

(** The shapely geometry classes. *)
Inductive Geometry :=
| Point (c : coord)
| LineString (cs : list coord)
| LinearRing (cs : list coord)
| Polygon (shell : list coord) (holes : list (list coord))
| MultiPoint (gs : list Geometry)
| MultiLineString (gs : list Geometry)
| MultiPolygon (gs : list Geometry)
| GeometryCollection (gs : list Geometry).

(** [geometry.geom_type] *)
Definition geom_type (geometry : Geometry) : string :=
  match geometry with
  | Point _ => "Point"
  | LineString _ => "LineString"
  | LinearRing _ => "LinearRing"
  | Polygon _ _ => "Polygon"
  | MultiPoint _ => "MultiPoint"
  | MultiLineString _ => "MultiLineString"
  | MultiPolygon _ => "MultiPolygon"
  | GeometryCollection _ => "GeometryCollection"
  end.

(** The attributes read by [extract_coordinates].  On a geometry class that
    does not have the attribute Python raises [AttributeError]; the
    dispatch on [geom_type] never reaches those cases, which are given a
    neutral value here. *)
Definition geometry_x (geometry : Geometry) : Q :=
  match geometry with Point c => c0 c | _ => 0%Q end.
Definition geometry_y (geometry : Geometry) : Q :=
  match geometry with Point c => c1 c | _ => 0%Q end.
Definition coords (geometry : Geometry) : list coord :=
  match geometry with
  | Point c => [c]
  | LineString cs | LinearRing cs => cs
  | _ => []
  end.
Definition exterior (geometry : Geometry) : list coord :=
  match geometry with Polygon shell _ => shell | _ => [] end.

(** [s.startswith(p)] and [s.endswith(p)] *)
Definition startswith (s p : string) : bool := String.prefix p s.
Definition endswith (s p : string) : bool :=
  let n := String.length s in
  let m := String.length p in
  (m <=? n)%nat && String.eqb (String.substring (n - m) m s) p.

(** [s in l] for a list of strings *)
Definition str_in (s : string) (l : list string) : bool :=
  existsb (String.eqb s) l.

(** Python values that flow through the feature dictionaries. [PGeo g] is a
    value that carries the geo interface of [g]: a geometry object of the
    KML library, or a GeoJSON geometry mapping. *)
Inductive PyVal :=
| PNone
| PNum (q : Q)
| PStr (s : string)
| PList (l : list PyVal)
| PDict (d : gmap string PyVal)
| PGeo (g : Geometry).

Definition bytes := string.

(** Exceptions (all of them subclasses of [Exception]). *)
Inductive exn :=
| KeyError (key : string)
| TypeError
| AttributeError (attr : string)
| LibraryError (msg : string).

Inductive result (A : Type) :=
| Return (a : A)
| Raise (e : exn).
Arguments Return {A} a.
Arguments Raise {A} e.

(** [try: body except Exception: handler] *)
Definition try_except {A} (body : result A) (handler : A) : A :=
  match body with Return a => a | Raise _ => handler end.

Definition rbind {A B} (m : result A) (k : A -> result B) : result B :=
  match m with Return a => k a | Raise e => Raise e end.

Declare Scope py_scope.
Delimit Scope py_scope with py.
Notation "'let*' x ':=' m 'in' k" := (rbind m (fun x => k))
  (at level 10, x pattern, m at level 100, k at level 200) : py_scope.
Open Scope py_scope.

(** Truth value of a Python object, as tested by [if v:], [v and w]. *)
Definition truthy (v : PyVal) : bool :=
  match v with
  | PNone => false
  | PNum q => negb (Qeq_bool q 0)
  | PStr s => negb (String.eqb s "")
  | PList l => match l with [] => false | _ => true end
  | PDict d => negb (bool_decide (d = ∅))
  | PGeo _ => true
  end.

(** An attribute slot of an object: the attribute does not exist
    ([hasattr] is false, reading it raises [AttributeError]), or it holds a
    value, which may be [None]. *)
Inductive attr :=
| Missing
| Holds (v : PyVal).

(** [getattr(o, name, default)] on a slot. *)
Definition getattr (a : attr) (default : PyVal) : PyVal :=
  match a with Missing => default | Holds v => v end.

(** ** extract_coordinates *)

Fixpoint extract_coordinates (geometry : Geometry) : list coord :=
  let geom_type := geom_type geometry in
  if String.eqb geom_type "Point" then
    [XY (geometry_x geometry) (geometry_y geometry)]
  else if str_in geom_type ["LineString"; "LinearRing"] then
    coords geometry
  else if String.eqb geom_type "Polygon" then
    exterior geometry
  else if startswith geom_type "Multi"
          || String.eqb geom_type "GeometryCollection" then
    (* for geom in geometry.geoms: coords.extend(extract_coordinates(geom)) *)
    match geometry with
    | MultiPoint gs | MultiLineString gs | MultiPolygon gs
    | GeometryCollection gs => flat_map extract_coordinates gs
    | _ => []
    end
  else [].

(** ** The objects handed over by the libraries *)

(** An entry of the parsed KML tree (a fastkml object).  [kml_features] is
    the list yielded by [entry.features()] when the object has that accessor
    (documents and folders), [None] when it has not (placemarks). *)
Inductive KmlNode :=
| KmlObject (kml_features : option (list KmlNode))
            (geometry name description : attr).

Definition kml_features (n : KmlNode) : option (list KmlNode) :=
  match n with KmlObject fs _ _ _ => fs end.
Definition geometry (n : KmlNode) : attr :=
  match n with KmlObject _ g _ _ => g end.
Definition name (n : KmlNode) : attr :=
  match n with KmlObject _ _ nm _ => nm end.
Definition description (n : KmlNode) : attr :=
  match n with KmlObject _ _ _ d => d end.

(** A member of a zip archive's central directory.  [member_data] is what
    decompressing the member gives (it raises on a damaged or encrypted
    member). *)
Record ZipInfo := {
  filename : string;
  member_data : result bytes
}.

(** An open [zipfile.ZipFile]: the members in directory order, and the
    table by name that [getinfo]/[read] go through. *)
Record ZipFile := {
  filelist : list ZipInfo;
  NameToInfo : gmap string ZipInfo
}.

(** How zipfile fills both while it reads the central directory: every
    member is appended to [filelist] and stored in [NameToInfo] under its
    name, a later member replacing an earlier one of the same name. *)
Definition RealGetContents (directory : list ZipInfo) : ZipFile :=
  foldl (fun z zi => {| filelist := filelist z ++ [zi];
                     NameToInfo := <[filename zi := zi]> (NameToInfo z) |})
        {| filelist := []; NameToInfo := ∅ |} directory.

Definition namelist (kmz : ZipFile) : list string :=
  map filename (filelist kmz).

Definition read (kmz : ZipFile) (name : string) : result bytes :=
  match NameToInfo kmz !! name with
  | Some zinfo => member_data zinfo
  | None => Raise (KeyError name)
  end.

(** The calls into third-party code. *)
Class Libraries := {
  (** [etree.fromstring(kml_data)]; only its raising matters, the root
      element is not used *)
  etree_fromstring : bytes -> result unit;
  (** [k = kml.KML(); k.from_string(kml_data); k.features()]: the
      top-level entries of the document *)
  KML_from_string : bytes -> result (list KmlNode);
  (** [shapely.geometry.shape] and [shapely.geometry.mapping] *)
  shape : PyVal -> result Geometry;
  mapping : Geometry -> PyVal;
  (** the central directory of [zipfile.ZipFile(BytesIO(data))] *)
  read_directory : bytes -> result (list ZipInfo);
  (** [shapely.ops.transform(transformer.transform, geom)] with the
      EPSG:4326 to EPSG:3857 transformer, and [geom.length] *)
  transform : Geometry -> result Geometry;
  geom_length : Geometry -> Q
}.

(** ** The accumulators of the traversal

    [features_from_document] appends to two lists owned by its caller.  A
    computation takes their current contents and gives a result together
    with their new contents; what was appended before an exception stays
    appended. *)

Definition acc : Type := list PyVal * list coord.
Definition M (A : Type) : Type := acc -> result A * acc.

Definition mret {A} (a : A) : M A := fun st => (Return a, st).
Definition mbindM {A B} (m : M A) (k : A -> M B) : M B :=
  fun st => match m st with
            | (Return a, st') => k a st'
            | (Raise e, st') => (Raise e, st')
            end.
Definition lift {A} (r : result A) : M A := fun st => (r, st).

(** [features_list.append(d)] and [coords_list.extend(cs)] *)
Definition features_append (d : PyVal) : M unit :=
  fun '(features_list, coords_list) =>
    (Return tt, (features_list ++ [d], coords_list)).
Definition coords_extend (cs : list coord) : M unit :=
  fun '(features_list, coords_list) =>
    (Return tt, (features_list, coords_list ++ cs)).

Notation "'do' x '<-' m ';' k" := (mbindM m (fun x => k))
  (at level 10, x pattern, m at level 100, k at level 200) : py_scope.

Section ForEach.
Context {A : Type} (body : A -> M unit).

(** [for a in l: body(a)] *)
Fixpoint for_each (l : list A) : M unit :=
  match l with
  | [] => mret tt
  | a :: l' => do _ <- body a; for_each l'
  end.
End ForEach.

Section FoldEach.
Context {A S : Type} (body : S -> A -> result S).

(** [for a in l: s = body(s, a)] *)
Fixpoint fold_each (l : list A) (s : S) : result S :=
  match l with
  | [] => Return s
  | a :: l' => let* s' := body s a in fold_each l' s'
  end.
End FoldEach.

(** ** utils.py *)

Section Utils.
Context {L : Libraries}.

(** The dictionary appended for one entry that carries a geometry. *)
Definition feature_dict (feature : KmlNode) (geom : Geometry) : PyVal :=
  PDict {[ "type" := PStr "Feature";
           "geometry" := mapping geom;
           "properties" := PDict {[
              "name" := getattr (name feature) (PStr "");
              "description" := getattr (description feature) (PStr "") ]} ]}.

(** The body of the loop of [features_from_document] up to the recursive
    call: [if hasattr(feature, 'geometry') and feature.geometry: ...] *)
Definition visit_geometry (feature : KmlNode) : M unit :=
  match geometry feature with
  | Holds g =>
      if truthy g then
        do geom <- lift (shape g);
        let coords := extract_coordinates geom in
        do _ <- coords_extend coords;
        features_append (feature_dict feature geom)
      else mret tt
  | Missing => mret tt
  end.

Fixpoint features_from_document (document : KmlNode) : M unit :=
  match kml_features document with
  | Some children =>
      for_each (fun feature =>
        do _ <- visit_geometry feature;
        (* Recursively process folders *)
        match kml_features feature with
        | Some _ => features_from_document feature
        | None => mret tt
        end) children
  | None => mret tt
  end.

(** [sum(...)] of floats, starting from 0 *)
Definition py_sum (l : list Q) : Q := foldl Qplus 0%Q l.

(** [len(l)] as a number *)
Definition len {A} (l : list A) : Q := inject_Z (Z.of_nat (length l)).

(** The center computed from the coordinate pool. *)
Definition center_of (all_coords : list coord) : option (Q * Q) :=
  match all_coords with
  | [] => None
  | _ =>
      let avg_lat := (py_sum (map c1 all_coords) / len all_coords)%Q in
      let avg_lon := (py_sum (map c0 all_coords) / len all_coords)%Q in
      Some (avg_lat, avg_lon)
  end.

(** The [try] block of [parse_kml_data]. *)
Definition parse_kml_data_body (kml_data : bytes)
  : result (option (gmap string PyVal) * option (Q * Q)) :=
  let* root := etree_fromstring kml_data in
  let* k := KML_from_string kml_data in
  let '(r, (features, all_coords)) :=
    for_each features_from_document k ([], []) in
  let* _ := r in
  let geojson : gmap string PyVal :=
    {[ "type" := PStr "FeatureCollection"; "features" := PList features ]} in
  let center := center_of all_coords in
  Return (Some geojson, center).

Definition parse_kml_data (kml_data : bytes)
  : option (gmap string PyVal) * option (Q * Q) :=
  try_except (parse_kml_data_body kml_data) (None, None).

(** [zipfile.ZipFile(BytesIO(kmz_file.read()))] *)
Definition ZipFile_open (data : bytes) : result ZipFile :=
  let* directory := read_directory data in
  Return (RealGetContents directory).

(** The search loop of [parse_kmz_file]: the first name that ends in
    [.kml], [None] when the loop ends without [break]. *)
Fixpoint find_kml (names : list string) : option string :=
  match names with
  | [] => None
  | name :: names' =>
      if endswith name ".kml" then Some name else find_kml names'
  end.

Definition parse_kmz_file_body (kmz_file : bytes)
  : result (option (gmap string PyVal) * option (Q * Q)) :=
  let* kmz := ZipFile_open kmz_file in
  let kml_file := find_kml (namelist kmz) in
  match kml_file with
  | Some name =>
      if String.eqb name "" then Return (None, None)
      else
        let* kml_data := read kmz name in
        Return (parse_kml_data kml_data)
  | None => Return (None, None)
  end.

Definition parse_kmz_file (kmz_file : bytes)
  : option (gmap string PyVal) * option (Q * Q) :=
  try_except (parse_kmz_file_body kmz_file) (None, None).

(** [for feature in v]: lists give their items, strings their characters,
    dictionaries their keys (in an order that no result below depends
    on); anything else is not iterable. *)
Definition py_iter (v : PyVal) : result (list PyVal) :=
  match v with
  | PList l => Return l
  | PStr s => Return (map (fun c => PStr (String c "")) (String.list_ascii_of_string s))
  | PDict d => Return (map (fun kv => PStr kv.1) (map_to_list d))
  | _ => Raise TypeError
  end.

(** [v[key]] for a string key *)
Definition getitem (v : PyVal) (key : string) : result PyVal :=
  match v with
  | PDict d =>
      match d !! key with
      | Some w => Return w
      | None => Raise (KeyError key)
      end
  | _ => Raise TypeError
  end.

(** Round half to even, and [round(q, ndigits)]. *)
Definition round_half_even (q : Q) : Z :=
  let f := Qfloor q in
  match (q - inject_Z f ?= 1 # 2)%Q with
  | Lt => f
  | Gt => (f + 1)%Z
  | Eq => if Z.even f then f else (f + 1)%Z
  end.
Definition py_round (q : Q) (ndigits : nat) : Q :=
  let scale := inject_Z (10 ^ Z.of_nat ndigits) in
  (inject_Z (round_half_even (q * scale)) / scale)%Q.

(** One turn of the loop of [calculate_path_distance]. *)
Definition add_feature_length (total_distance : Q) (feature : PyVal)
  : result Q :=
  let* g := getitem feature "geometry" in
  let* geom := shape g in
  if str_in (geom_type geom) ["LineString"; "MultiLineString"] then
    let* projected_geom := transform geom in
    Return (total_distance + geom_length projected_geom)%Q
  else Return total_distance.

Definition calculate_path_distance_body (geojson_data : gmap string PyVal)
  : result (option Q) :=
  let total_distance := 0%Q in
  let* features :=
    py_iter (default (PList []) (geojson_data !! "features")) in
  let* total_distance :=
    fold_each add_feature_length features total_distance in
  Return (Some (py_round (total_distance / 1000) 2)).

Definition calculate_path_distance (geojson_data : gmap string PyVal)
  : option Q :=
  try_except (calculate_path_distance_body geojson_data) None.

(** ** views.py: what [CircuitPathEditView.post] does with an upload *)

Record CircuitPath := {
  geojson_data : option (gmap string PyVal);
  map_center_lat : option Q;
  map_center_lon : option Q;
  path_distance_km : option Q
}.

Definition process_kmz_upload (instance : CircuitPath) (kmz_file : bytes)
  : CircuitPath :=
  let '(geojson, center_coords) := parse_kmz_file kmz_file in
  match geojson, center_coords with
  | Some g, Some (lat, lon) =>
      if truthy (PDict g) then
        let instance :=
          {| geojson_data := Some g;
             map_center_lat := Some lat;
             map_center_lon := Some lon;
             path_distance_km := path_distance_km instance |} in
        match calculate_path_distance g with
        | Some distance =>
            if truthy (PNum distance) then
              {| geojson_data := geojson_data instance;
                 map_center_lat := map_center_lat instance;
                 map_center_lon := map_center_lon instance;
                 path_distance_km := Some distance |}
            else instance
        | None => instance
        end
      else instance
  | _, _ => instance
  end.
End Utils.

(** ** Vocabulary of the specification *)

Section Vocabulary.
Context {L : Libraries}.

(** The entry carries a non-null geometry: the test
    [hasattr(feature, 'geometry') and feature.geometry]. *)
Definition carries_geometry (feature : KmlNode) : bool :=
  match geometry feature with
  | Holds g => truthy g
  | Missing => false
  end.

(** The entries strictly below [document] that carry a geometry, in
    document order (an entry before its own children). *)
Fixpoint placemarks_below (document : KmlNode) : list KmlNode :=
  match kml_features document with
  | Some children =>
      flat_map (fun feature =>
        (if carries_geometry feature then [feature] else [])
        ++ placemarks_below feature) children
  | None => []
  end.

(** Every entry of the tree that carries a geometry, the top-level
    entries included, in document order. *)
Definition placemarks_of_tree (top : list KmlNode) : list KmlNode :=
  flat_map (fun feature =>
    (if carries_geometry feature then [feature] else [])
    ++ placemarks_below feature) top.

(** [geom] is the shapely geometry of the entry [feature]. *)
Definition shaped (feature : KmlNode) (geom : Geometry) : Prop :=
  exists g, geometry feature = Holds g /\ shape g = Return geom.

(** Converting the geometry of the entry raises. *)
Definition shape_raises (feature : KmlNode) : Prop :=
  exists g e, geometry feature = Holds g /\ shape g = Raise e.

(** An error is raised while [kml_data] is parsed and traversed. *)
Definition parsing_raises (kml_data : bytes) : Prop :=
  (exists e, etree_fromstring kml_data = Raise e)
  \/ (exists e, KML_from_string kml_data = Raise e)
  \/ (exists top feature,
        KML_from_string kml_data = Return top
        /\ feature ∈ flat_map placemarks_below top
        /\ shape_raises feature).

(** The unweighted arithmetic mean of a list of numbers. *)
Definition arithmetic_mean (l : list Q) : Q :=
  (foldr Qplus 0 l / inject_Z (Z.of_nat (length l)))%Q.

(** The geometry kinds that count towards the path distance. *)
Definition is_linear (geom : Geometry) : bool :=
  match geom with
  | LineString _ | MultiLineString _ => true
  | _ => false
  end.

(** [geom] is the shapely geometry of the feature dictionary [feature]. *)
Definition feature_geometry (feature : PyVal) (geom : Geometry) : Prop :=
  exists g, getitem feature "geometry" = Return g /\ shape g = Return geom.

(** Handling [feature] in [calculate_path_distance] raises: its geometry
    cannot be read or converted, or it is linear and cannot be
    reprojected. *)
Definition distance_raises (feature : PyVal) : Prop :=
  (exists e, getitem feature "geometry" = Raise e)
  \/ (exists g e, getitem feature "geometry" = Return g /\ shape g = Raise e)
  \/ (exists geom e, feature_geometry feature geom
        /\ is_linear geom = true /\ transform geom = Raise e).

(** [feature['properties'][key]] of a feature dictionary, when present. *)
Definition feature_property (feature : PyVal) (key : string)
  : option PyVal :=
  match feature with
  | PDict d =>
      match d !! "properties" with
      | Some (PDict properties) => properties !! key
      | _ => None
      end
  | _ => None
  end.

(** A Python [str]. *)
Definition is_str (v : PyVal) : bool :=
  match v with PStr _ => true | _ => false end.

(** [zinfo] is the first member of [directory], in directory order,
    whose name ends in [.kml]; [after] are the members behind it. *)
Definition first_markup_entry (directory : list ZipInfo)
           (zinfo : ZipInfo) (after : list ZipInfo) : Prop :=
  exists before,
    directory = before ++ zinfo :: after
    /\ Forall (fun z => endswith (filename z) ".kml" = false) before
    /\ endswith (filename zinfo) ".kml" = true.
End Vocabulary.

(** ** Test doubles for the libraries

    A stand-in used to run the functions on concrete inputs: the markup
    and archive parsers are given as tables, [shape] accepts exactly the
    values that carry a geo interface, [mapping] gives such a value back,
    the projection is the identity and the length of a line is 1000 m per
    segment. *)

Definition segments (geom : Geometry) : nat :=
  match geom with
  | LineString cs => length cs - 1
  | _ => 0
  end.

Definition test_libraries
    (markup : bytes -> result (list KmlNode))
    (archive : bytes -> result (list ZipInfo)) : Libraries :=
  {| etree_fromstring := fun kml_data =>
       let* _ := markup kml_data in Return tt;
     KML_from_string := markup;
     shape := fun v =>
       match v with
       | PGeo g => Return g
       | _ => Raise (LibraryError "no geo interface")
       end;
     mapping := PGeo;
     read_directory := archive;
     transform := Return;
     geom_length := fun geom =>
       match geom with
       | MultiLineString gs =>
           inject_Z (1000 * Z.of_nat (list_sum (map segments gs)))
       | _ => inject_Z (1000 * Z.of_nat (segments geom))
       end |}.

(** Sample entries. *)
Definition sf_line : Geometry :=
  LineString [XYZ (-1224194 # 10000) (377749 # 10000) 0;
              XYZ (-1224084 # 10000) (377849 # 10000) 0].
Definition sf_point : Geometry :=
  Point (XYZ (-1224194 # 10000) (377749 # 10000) 0).

Definition placemark (geom : Geometry) (nm descr : attr) : KmlNode :=
  KmlObject None (Holds (PGeo geom)) nm descr.
Definition folder (children : list KmlNode) : KmlNode :=
  KmlObject (Some children) Missing (Holds PNone) (Holds PNone).

(** A markup whose root element holds one placemark directly:
    [<kml><Placemark><name>Circuit Route</name><LineString>...]. *)
Definition bare_placemark : list KmlNode :=
  [placemark sf_line (Holds (PStr "Circuit Route")) (Holds PNone)].

(** The same placemark inside a document, and a placemark that has neither
    a [<name>] nor a [<description>] element: the KML library gives such an
    object both attributes, holding [None]. *)
Definition route_document : list KmlNode :=
  [folder [placemark sf_line (Holds (PStr "Circuit Route"))
                     (Holds (PStr "Test circuit path"))]].
Definition unnamed_document : list KmlNode :=
  [folder [placemark sf_line (Holds PNone) (Holds PNone)]].

(** A document in which the second placemark has a geometry that shapely
    rejects. *)
Definition damaged_document : list KmlNode :=
  [folder [placemark sf_point Missing Missing;
           folder [KmlObject None (Holds (PStr "LineString of one point"))
                             Missing Missing];
           placemark sf_line Missing Missing]].

(** A markup parser that knows three documents. *)
Definition test_markup (kml_data : bytes) : result (list KmlNode) :=
  if String.eqb kml_data "bare" then Return bare_placemark
  else if String.eqb kml_data "route" then Return route_document
  else if String.eqb kml_data "unnamed" then Return unnamed_document
  else if String.eqb kml_data "damaged" then Return damaged_document
  else Raise (LibraryError "not markup").

(** An archive reader that knows three archives: one whose two members
    share a name, one with a markup member behind another file, and one
    without markup. *)
Definition test_archive (kmz_file : bytes) : result (list ZipInfo) :=
  if String.eqb kmz_file "twice" then
    Return [ {| filename := "doc.kml"; member_data := Return "route" |};
             {| filename := "doc.kml"; member_data := Return "bare" |} ]
  else if String.eqb kmz_file "kmz" then
    Return [ {| filename := "logo.png"; member_data := Return "png" |};
             {| filename := "doc.kml"; member_data := Return "route" |};
             {| filename := "old.kml"; member_data := Return "unnamed" |} ]
  else if String.eqb kmz_file "other" then
    Return [ {| filename := "other_file.txt";
                member_data := Return "Not a KML file" |} ]
  else Raise (LibraryError "File is not a zip file").

Definition test_double : Libraries := test_libraries test_markup test_archive.

(** The same libraries with a projection that fails on every geometry. *)
Definition failing_projection : Libraries :=
  {| etree_fromstring := etree_fromstring (Libraries := test_double);
     KML_from_string := KML_from_string (Libraries := test_double);
     shape := shape (Libraries := test_double);
     mapping := mapping (Libraries := test_double);
     read_directory := read_directory (Libraries := test_double);
     transform := fun _ => Raise (LibraryError "projection failed");
     geom_length := geom_length (Libraries := test_double) |}.

(** Feature collections as [calculate_path_distance] meets them in the
    tests: a line, a point, and a feature without geometry. *)
Definition line_feature : PyVal :=
  PDict {[ "type" := PStr "Feature"; "geometry" := PGeo sf_line ]}.
Definition point_feature : PyVal :=
  PDict {[ "type" := PStr "Feature"; "geometry" := PGeo sf_point ]}.
Definition broken_feature : PyVal :=
  PDict {[ "type" := PStr "Feature" ]}.
Definition collection (features : list PyVal) : gmap string PyVal :=
  {[ "type" := PStr "FeatureCollection"; "features" := PList features ]}.

(** ** The map: generate_folium_map and the views that call it *)

(** The calls into folium, and [str(e)] of an exception. *)
Class MapLibrary := {
  (** [m = folium.Map(location=center_coords, zoom_start=zoom, ...)],
      [folium.GeoJson(geojson_data, ...).add_to(m)],
      [folium.LayerControl().add_to(m)], [m._repr_html_()] *)
  folium_html : gmap string PyVal -> Q * Q -> Z -> result string;
  exn_str : exn -> string
}.

(** A stored circuit path as the views read it: the fields written by the
    upload handler, and [map_zoom]. *)
Record StoredPath := {
  path_fields : CircuitPath;
  map_zoom : Z
}.

Section Views.
Context {R : MapLibrary}.

Definition generate_folium_map (geojson : gmap string PyVal)
           (center_coords : Q * Q) (zoom : Z) : string :=
  match folium_html geojson center_coords zoom with
  | Return html => html
  | Raise e => "<p>Error generating map: " +:+ exn_str e +:+ "</p>"
  end.

(** [context["map_html"]] as set by [CircuitPathView.get_extra_context]. *)
Definition get_extra_context (instance : StoredPath) : option string :=
  match geojson_data (path_fields instance),
        map_center_lat (path_fields instance),
        map_center_lon (path_fields instance) with
  | Some g, Some lat, Some lon =>
      if truthy (PDict g) && truthy (PNum lat) && truthy (PNum lon) then
        let center := (lat, lon) in
        Some (generate_folium_map g center (map_zoom instance))
      else None
  | _, _, _ => None
  end.

(** [map_html] as computed by [circuit_detail_tab]; [circuit_path] is
    [None] when [circuit.path] raises [DoesNotExist]. *)
Definition circuit_detail_tab (circuit_path : option StoredPath)
  : option string :=
  match circuit_path with
  | Some path =>
      let map_html := None in
      match geojson_data (path_fields path),
            map_center_lat (path_fields path),
            map_center_lon (path_fields path) with
      | Some g, Some lat, Some lon =>
          if truthy (PDict g) && truthy (PNum lat) && truthy (PNum lon) then
            let center := (lat, lon) in
            Some (generate_folium_map g center (map_zoom path))
          else map_html
      | _, _, _ => map_html
      end
  | None => None
  end.
End Views.

(** ** Further vocabulary and test data *)

(** The geometry with every interior ring removed, at any depth. *)
Fixpoint strip_holes (geometry : Geometry) : Geometry :=
  match geometry with
  | Polygon shell _ => Polygon shell []
  | MultiPoint gs => MultiPoint (map strip_holes gs)
  | MultiLineString gs => MultiLineString (map strip_holes gs)
  | MultiPolygon gs => MultiPolygon (map strip_holes gs)
  | GeometryCollection gs => GeometryCollection (map strip_holes gs)
  | _ => geometry
  end.

(** A feature dictionary as [features_from_document] builds it: the keys
    [type], [geometry] and [properties], the latter with the keys [name]
    and [description]. *)
Definition is_feature_dict (feature : PyVal) : Prop :=
  exists d properties,
    feature = PDict d
    /\ dom d = ({[ "type"; "geometry"; "properties" ]} : gset string)
    /\ d !! "type" = Some (PStr "Feature")
    /\ d !! "properties" = Some (PDict properties)
    /\ dom properties = ({[ "name"; "description" ]} : gset string).

(** An archive whose first markup member is damaged and whose second one
    is sound, and one whose first markup member cannot be decompressed. *)
Definition test_archive_mixed (kmz_file : bytes) : result (list ZipInfo) :=
  if String.eqb kmz_file "mixed" then
    Return [ {| filename := "doc.kml"; member_data := Return "damaged" |};
             {| filename := "good.kml"; member_data := Return "route" |} ]
  else if String.eqb kmz_file "encrypted" then
    Return [ {| filename := "doc.kml";
                member_data := Raise (LibraryError "File is encrypted") |};
             {| filename := "good.kml"; member_data := Return "route" |} ]
  else test_archive kmz_file.

Definition test_double_mixed : Libraries :=
  test_libraries test_markup test_archive_mixed.

(** A stand-in for folium that needs a [features] key. *)
Definition test_map : MapLibrary :=
  {| folium_html := fun geojson center zoom =>
       match geojson !! "features" with
       | Some _ => Return "<div>map</div>"
       | None => Raise (KeyError "features")
       end;
     exn_str := fun e =>
       match e with
       | KeyError key => "'" +:+ key +:+ "'"
       | TypeError => "type error"
       | AttributeError a => a
       | LibraryError msg => msg
       end |}.

(** A line that leaves the domain of the Web Mercator projection (its
    second vertex has latitude 91): pyproj, called without [errcheck],
    does not raise on it. *)
Definition polar_line : Geometry := LineString [XY 0 0; XY 0 91].
Definition polar_feature : PyVal :=
  PDict {[ "type" := PStr "Feature"; "geometry" := PGeo polar_line ]}.

Definition blank_path : CircuitPath :=
  {| geojson_data := None; map_center_lat := None;
     map_center_lon := None; path_distance_km := None |}.

(** * Properties *)

(** ** Induction over a KML tree *)

Lemma KmlNode_tree_ind (P : KmlNode -> Prop) :
  (forall g nm d, P (KmlObject None g nm d)) ->
  (forall children g nm d,
      Forall P children -> P (KmlObject (Some children) g nm d)) ->
  forall n, P n.
Proof.
  intros Hleaf Hnode.
  fix IH 1.
  intros [[children|] g nm d]; [|apply Hleaf].
  apply Hnode.
  induction children as [|c children IHc]; constructor; [apply IH|exact IHc].
Qed.

(** ** The accumulator monad *)

Lemma mbindM_mret_r (m : M unit) st :
  mbindM m (fun _ => mret tt) st = m st.
Proof.
  unfold mbindM, mret. destruct (m st) as [[[]|e] st']; reflexivity.
Qed.

Lemma mbindM_assoc {A B C} (m : M A) (k : A -> M B) (h : B -> M C) st :
  mbindM (mbindM m k) h st = mbindM m (fun a => mbindM (k a) h) st.
Proof.
  unfold mbindM. destruct (m st) as [[a|e] st']; reflexivity.
Qed.

Lemma mbindM_ext {A B} (m m' : M A) (k k' : A -> M B) st :
  (forall s, m s = m' s) -> (forall a s, k a s = k' a s) ->
  mbindM m k st = mbindM m' k' st.
Proof.
  intros Hm Hk. unfold mbindM. rewrite Hm.
  destruct (m' st) as [[a|e] st']; [apply Hk|reflexivity].
Qed.


Lemma for_each_app {A} (body : A -> M unit) l1 l2 st :
  for_each body (l1 ++ l2) st
  = mbindM (for_each body l1) (fun _ => for_each body l2) st.
Proof.
  revert st. induction l1 as [|a l1 IH]; intros st; cbn [for_each app].
  - reflexivity.
  - rewrite mbindM_assoc. apply mbindM_ext; auto.
Qed.

Lemma for_each_flat_map {A B} (f : A -> list B) (body : B -> M unit)
      (g : A -> M unit) l :
  Forall (fun a => forall st, g a st = for_each body (f a) st) l ->
  forall st, for_each g l st = for_each body (flat_map f l) st.
Proof.
  induction 1 as [|a l Ha _ IH]; intros st; cbn [for_each flat_map].
  - reflexivity.
  - rewrite for_each_app. apply mbindM_ext; auto.
Qed.

(** ** The traversal is one pass over the entries in document order *)

Section Traversal.
Context {L : Libraries}.

Lemma visit_geometry_skip feature st :
  carries_geometry feature = false ->
  visit_geometry feature st = mret tt st.
Proof.
  unfold carries_geometry, visit_geometry.
  destruct (geometry feature) as [|g]; [reflexivity|].
  intros ->. reflexivity.
Qed.

Lemma for_each_visit_own feature st :
  for_each visit_geometry
    (if carries_geometry feature then [feature] else []) st
  = visit_geometry feature st.
Proof.
  destruct (carries_geometry feature) eqn:Hc; simpl.
  - apply mbindM_mret_r.
  - symmetry. by apply visit_geometry_skip.
Qed.

Lemma features_from_document_flat document :
  forall st,
    features_from_document document st
    = for_each visit_geometry (placemarks_below document) st.
Proof.
  induction document as [g nm d|children g nm d IH] using KmlNode_tree_ind;
    intros st; [reflexivity|].
  simpl. apply for_each_flat_map.
  eapply Forall_impl; [exact IH|]. clear IH.
  intros feature IH st'. simpl in IH.
  rewrite for_each_app.
  apply mbindM_ext; [intros s; by rewrite for_each_visit_own|].
  intros _ s. destruct feature as [[cs|] g' nm' d']; [apply IH|reflexivity].
Qed.

Lemma traversal_flat top st :
  for_each features_from_document top st
  = for_each visit_geometry (flat_map placemarks_below top) st.
Proof.
  apply for_each_flat_map, Forall_forall.
  intros document _. apply features_from_document_flat.
Qed.

Lemma placemarks_below_carry document :
  Forall (fun feature => carries_geometry feature = true)
         (placemarks_below document).
Proof.
  induction document as [g nm d|children g nm d IH] using KmlNode_tree_ind;
    [constructor|].
  simpl. induction IH as [|c cs Hc _ IHcs]; simpl; [constructor|].
  rewrite !Forall_app. split_and!; [|exact Hc|exact IHcs].
  destruct (carries_geometry c) eqn:E; repeat constructor. exact E.
Qed.

Lemma flat_placemarks_carry top :
  Forall (fun feature => carries_geometry feature = true)
         (flat_map placemarks_below top).
Proof.
  induction top as [|t top IH]; simpl; [constructor|].
  apply Forall_app. split; [apply placemarks_below_carry|exact IH].
Qed.
End Traversal.

(** ** What one pass collects *)

Section Collecting.
Context {L : Libraries}.

Lemma shaped_not_raises feature geom :
  shaped feature geom -> shape_raises feature -> False.
Proof.
  intros (g & Hg & Hs) (g' & e & Hg' & Hs'). congruence.
Qed.

Lemma shaped_functional feature geom geom' :
  shaped feature geom -> shaped feature geom' -> geom = geom'.
Proof.
  intros (g & Hg & Hs) (g' & Hg' & Hs'). congruence.
Qed.

Lemma Forall2_shaped_functional entries geoms geoms' :
  Forall2 shaped entries geoms -> Forall2 shaped entries geoms' ->
  geoms = geoms'.
Proof.
  intros H1. revert geoms'.
  induction H1 as [|f g fs gs Hf _ IH]; intros geoms' H2;
    inversion H2; subst; [reflexivity|].
  f_equal; [eapply shaped_functional; eauto|auto].
Qed.

Lemma Forall2_shaped_no_raise entries geoms :
  Forall2 shaped entries geoms -> Exists shape_raises entries -> False.
Proof.
  induction 1 as [|f g fs gs Hf _ IH]; inversion 1; subst;
    eauto using shaped_not_raises.
Qed.

Lemma visit_geometry_cases feature st :
  carries_geometry feature = true ->
  (exists geom,
      shaped feature geom
      /\ visit_geometry feature st
         = (Return tt, (st.1 ++ [feature_dict feature geom],
                        st.2 ++ extract_coordinates geom)))
  \/ (exists e,
      shape_raises feature /\ visit_geometry feature st = (Raise e, st)).
Proof.
  unfold carries_geometry, visit_geometry, shaped, shape_raises.
  destruct (geometry feature) as [|g]; [discriminate|].
  intros ->. destruct st as [fl cl].
  unfold mbindM, lift. destruct (shape g) as [geom|e] eqn:Hs.
  - left. exists geom. split; [eauto|reflexivity].
  - right. exists e. split; [eauto|reflexivity].
Qed.

Lemma for_each_visit_cases entries :
  Forall (fun feature => carries_geometry feature = true) entries ->
  forall st,
    (exists geoms,
        Forall2 shaped entries geoms
        /\ for_each visit_geometry entries st
           = (Return tt, (st.1 ++ zip_with feature_dict entries geoms,
                          st.2 ++ flat_map extract_coordinates geoms)))
    \/ (exists e st',
        Exists shape_raises entries
        /\ for_each visit_geometry entries st = (Raise e, st')).
Proof.
  induction 1 as [|f fs Hf _ IH]; intros st.
  - left. exists []. split; [constructor|].
    destruct st; simpl. by rewrite !app_nil_r.
  - cbn [for_each]. unfold mbindM.
    destruct (visit_geometry_cases f st Hf)
      as [(geom & Hg & ->)|(e & He & ->)].
    + destruct (IH (st.1 ++ [feature_dict f geom],
                    st.2 ++ extract_coordinates geom))
        as [(geoms & Hgs & ->)|(e & st' & He & ->)].
      * left. exists (geom :: geoms). split; [by constructor|].
        simpl. by rewrite <- !app_assoc.
      * right. exists e, st'. split; [by apply Exists_cons_tl|reflexivity].
    + right. exists e, st. split; [by apply Exists_cons_hd|reflexivity].
Qed.

(** [parse_kml_data] either collects every entry below the top-level
    entries, or an error was raised and nothing is returned. *)
Lemma parse_kml_data_cases kml_data :
  (exists top geoms,
      etree_fromstring kml_data = Return tt
      /\ KML_from_string kml_data = Return top
      /\ Forall2 shaped (flat_map placemarks_below top) geoms
      /\ parse_kml_data kml_data
         = (Some {[ "type" := PStr "FeatureCollection";
                    "features" :=
                      PList (zip_with feature_dict
                               (flat_map placemarks_below top) geoms) ]},
            center_of (flat_map extract_coordinates geoms)))
  \/ (parsing_raises kml_data /\ parse_kml_data kml_data = (None, None)).
Proof.
  unfold parse_kml_data, parse_kml_data_body, parsing_raises.
  destruct (etree_fromstring kml_data) as [[]|e] eqn:Het; simpl.
  2: { right. split; [left; eauto|reflexivity]. }
  destruct (KML_from_string kml_data) as [top|e] eqn:Hk; simpl.
  2: { right. split; [right; left; eauto|reflexivity]. }
  rewrite traversal_flat.
  destruct (for_each_visit_cases _ (flat_placemarks_carry top) ([], []))
    as [(geoms & Hgs & ->)|(e & [fl cl] & He & ->)]; simpl.
  - left. exists top, geoms. auto.
  - right. split; [|reflexivity]. right; right.
    apply Exists_exists in He as (feature & Hin & Hr).
    exists top, feature. split_and!; auto.
Qed.
End Collecting.

(** ** Coordinate extraction *)

(** C2: [extract_coordinates] returns the single (x, y) pair of a Point,
    the vertices in order of a LineString or LinearRing, the exterior
    ring only of a Polygon, and for a multi-part geometry or a geometry
    collection the concatenation, in child order, of what it returns for
    each child. *)
Theorem extract_coordinates_by_kind :
  (forall c, extract_coordinates (Point c) = [XY (c0 c) (c1 c)])
  /\ (forall cs, extract_coordinates (LineString cs) = cs)
  /\ (forall cs, extract_coordinates (LinearRing cs) = cs)
  /\ (forall shell holes, extract_coordinates (Polygon shell holes) = shell)
  /\ (forall gs,
        extract_coordinates (MultiPoint gs)
        = concat (map extract_coordinates gs))
  /\ (forall gs,
        extract_coordinates (MultiLineString gs)
        = concat (map extract_coordinates gs))
  /\ (forall gs,
        extract_coordinates (MultiPolygon gs)
        = concat (map extract_coordinates gs))
  /\ (forall gs,
        extract_coordinates (GeometryCollection gs)
        = concat (map extract_coordinates gs)).
Proof.
  split_and!; intros; cbn -[flat_map concat]; auto using flat_map_concat_map.
Qed.

(** ** Geometry extraction *)

Section Extraction.
Context {L : Libraries}.

(** A successful parse returns one feature for each entry below the
    top-level entries that carries a geometry, in document order. *)
Lemma parse_kml_data_collects kml_data geojson center :
  parse_kml_data kml_data = (Some geojson, center) ->
  exists top geoms,
    KML_from_string kml_data = Return top
    /\ Forall2 shaped (flat_map placemarks_below top) geoms
    /\ geojson !! "features"
       = Some (PList (zip_with feature_dict
                        (flat_map placemarks_below top) geoms))
    /\ center = center_of (flat_map extract_coordinates geoms).
Proof.
  intros Hp.
  destruct (parse_kml_data_cases kml_data)
    as [(top & geoms & _ & Hk & Hgs & Heq)|[_ Heq]];
    rewrite Heq in Hp; [|discriminate].
  injection Hp as <- <-. exists top, geoms. split_and!; auto.
Qed.

Lemma feature_dict_properties feature geom :
  feature_property (feature_dict feature geom) "name"
  = Some (getattr (name feature) (PStr ""))
  /\ feature_property (feature_dict feature geom) "description"
     = Some (getattr (description feature) (PStr "")).
Proof. split; reflexivity. Qed.

(** Where the attribute does not exist the property is the empty string,
    and a string held by the attribute is passed on. *)
Lemma feature_dict_name_default feature geom :
  name feature = Missing ->
  feature_property (feature_dict feature geom) "name" = Some (PStr "").
Proof.
  intros Hn. destruct (feature_dict_properties feature geom) as [-> _].
  by rewrite Hn.
Qed.

Lemma feature_dict_description_default feature geom :
  description feature = Missing ->
  feature_property (feature_dict feature geom) "description"
  = Some (PStr "").
Proof.
  intros Hn. destruct (feature_dict_properties feature geom) as [_ ->].
  by rewrite Hn.
Qed.
End Extraction.

(** Top-level entries without children leave both accumulators empty,
    whether they carry a geometry or not. *)
Lemma top_level_leaves_ignored {L : Libraries} kml_data top :
  etree_fromstring kml_data = Return tt ->
  KML_from_string kml_data = Return top ->
  Forall (fun feature => kml_features feature = None) top ->
  parse_kml_data kml_data
  = (Some {[ "type" := PStr "FeatureCollection"; "features" := PList [] ]},
     None).
Proof.
  intros Het Hk Hleaves.
  unfold parse_kml_data, parse_kml_data_body. rewrite Het, Hk. simpl.
  rewrite traversal_flat.
  replace (flat_map placemarks_below top) with (@nil KmlNode); [reflexivity|].
  clear Hk. induction Hleaves as [|[fs g nm d] top Hf _ IH]; [reflexivity|].
  simpl in Hf. subst fs. exact IH.
Qed.

(** C1: on a markup whose root holds a placemark directly, the tree has
    one entry that carries a geometry, and [parse_kml_data] succeeds with
    an empty feature collection and no center: the top-level entry is
    only searched for children, its own geometry is not looked at. *)
Theorem top_level_placemark_not_collected :
  KML_from_string (Libraries := test_double) "bare" = Return bare_placemark
  /\ placemarks_of_tree bare_placemark = bare_placemark
  /\ parse_kml_data (L := test_double) "bare"
     = (Some {[ "type" := PStr "FeatureCollection";
                "features" := PList [] ]}, None).
Proof. split_and!; reflexivity. Qed.

(** The same placemark one level down is collected. *)
Lemma nested_placemark_collected :
  exists geojson center feature,
    parse_kml_data (L := test_double) "route" = (Some geojson, center)
    /\ geojson !! "features" = Some (PList [feature])
    /\ feature_property feature "name" = Some (PStr "Circuit Route").
Proof. eexists _, _, _. split_and!; reflexivity. Qed.

(** C9: for a placemark whose [name] and [description] attributes exist
    and hold [None], the feature that [parse_kml_data] returns has the
    properties [name] and [description] set to [None], which is not a
    string: the empty-string default of [getattr] applies only where the
    attribute does not exist. *)
Theorem unnamed_placemark_properties_are_none :
  exists geojson center feature,
    parse_kml_data (L := test_double) "unnamed" = (Some geojson, center)
    /\ geojson !! "features" = Some (PList [feature])
    /\ feature_property feature "name" = Some PNone
    /\ feature_property feature "description" = Some PNone
    /\ is_str PNone = false.
Proof. eexists _, _, _. split_and!; reflexivity. Qed.

(** ** The center point *)

Lemma foldl_Qplus_foldr (l : list Q) (a : Q) :
  (foldl Qplus a l == a + foldr Qplus 0 l)%Q.
Proof.
  revert a. induction l as [|q l IH]; intros a; simpl.
  - ring.
  - rewrite IH. ring.
Qed.

Lemma py_sum_foldr (l : list Q) : (py_sum l == foldr Qplus 0 l)%Q.
Proof. unfold py_sum. rewrite foldl_Qplus_foldr. ring. Qed.

Lemma py_sum_len_mean {A} (f : A -> Q) (l : list A) :
  (py_sum (map f l) / len l == arithmetic_mean (map f l))%Q.
Proof.
  unfold arithmetic_mean, len. rewrite length_map, py_sum_foldr. reflexivity.
Qed.

Section Center.
Context {L : Libraries}.

(** C3: after a successful parse the center is absent when the
    coordinate pool (the coordinates extracted from every collected
    geometry, in order) is empty; otherwise it is the pair whose first
    component is the arithmetic mean of the second components
    (latitudes) of the pool and whose second component is the arithmetic
    mean of the first components (longitudes). *)
Theorem center_is_mean_lat_lon kml_data geojson center :
  parse_kml_data kml_data = (Some geojson, center) ->
  exists top geoms,
    KML_from_string kml_data = Return top
    /\ Forall2 shaped (flat_map placemarks_below top) geoms
    /\ let pool := flat_map extract_coordinates geoms in
       match center with
       | Some (lat, lon) =>
           pool <> []
           /\ (lat == arithmetic_mean (map c1 pool))%Q
           /\ (lon == arithmetic_mean (map c0 pool))%Q
       | None => pool = []
       end.
Proof.
  intros Hp.
  apply parse_kml_data_collects in Hp as (top & geoms & Hk & Hgs & _ & ->).
  exists top, geoms. split_and!; auto. simpl.
  destruct (flat_map extract_coordinates geoms) as [|c pool] eqn:E;
    [reflexivity|].
  unfold center_of. split_and!; [discriminate|apply py_sum_len_mean..].
Qed.

(** ** Failure of the extraction *)

(** C5: when an error is raised while the markup is parsed or while
    the tree is traversed, [parse_kml_data] returns (None, None): no
    feature collection, and so no partial one, and no center. *)
Theorem parse_error_yields_absence kml_data :
  parsing_raises kml_data -> parse_kml_data kml_data = (None, None).
Proof.
  intros Hr.
  destruct (parse_kml_data_cases kml_data)
    as [(top & geoms & Het & Hk & Hgs & _)|[_ Heq]]; [exfalso|exact Heq].
  destruct Hr as [[e He]|[[e He]|(top' & feature & Hk' & Hin & Hf)]].
  - congruence.
  - congruence.
  - assert (top' = top) as -> by congruence.
    eapply Forall2_shaped_no_raise; [exact Hgs|].
    apply Exists_exists. eauto.
Qed.

(** Conversely, (None, None) is returned only when an error was raised. *)
Lemma absence_only_on_error kml_data :
  parse_kml_data kml_data = (None, None) -> parsing_raises kml_data.
Proof.
  intros Hp.
  destruct (parse_kml_data_cases kml_data)
    as [(top & geoms & _ & _ & _ & Heq)|[Hr _]]; [congruence|exact Hr].
Qed.
End Center.

Lemma center_is_mean_lat_lon_witness :
  exists geojson center,
    parse_kml_data (L := test_double) "route" = (Some geojson, center)
    /\ exists top geoms,
      KML_from_string (Libraries := test_double) "route" = Return top
      /\ Forall2 (shaped (L := test_double))
                 (flat_map placemarks_below top) geoms
      /\ let pool := flat_map extract_coordinates geoms in
         match center with
         | Some (lat, lon) =>
             pool <> []
             /\ (lat == arithmetic_mean (map c1 pool))%Q
             /\ (lon == arithmetic_mean (map c0 pool))%Q
         | None => pool = []
         end.
Proof.
  eexists _, _. split; [reflexivity|].
  apply (center_is_mean_lat_lon (L := test_double) "route" _ _ eq_refl).
Defined.

Lemma parse_error_yields_absence_witness :
  parsing_raises (L := test_double) "damaged"
  /\ parse_kml_data (L := test_double) "damaged" = (None, None).
Proof.
  assert (Hr : parsing_raises (L := test_double) "damaged").
  { right; right.
    exists damaged_document,
      (KmlObject None (Holds (PStr "LineString of one point"))
                 Missing Missing).
    split_and!; [reflexivity|simpl; repeat constructor|].
    eexists _, _. split; reflexivity. }
  split; [exact Hr|].
  exact (parse_error_yields_absence (L := test_double) "damaged" Hr).
Defined.

(** ** The archive *)

Lemma RealGetContents_foldl directory z :
  let z' :=
    foldl (fun z zi => {| filelist := filelist z ++ [zi];
                       NameToInfo := <[filename zi := zi]> (NameToInfo z) |})
          z directory in
  filelist z' = filelist z ++ directory
  /\ NameToInfo z'
     = foldl (fun m zi => <[filename zi := zi]> m) (NameToInfo z) directory.
Proof.
  revert z. induction directory as [|zi directory IH]; intros z; simpl.
  - by rewrite app_nil_r.
  - destruct (IH {| filelist := filelist z ++ [zi];
                    NameToInfo := <[filename zi := zi]> (NameToInfo z) |})
      as [-> ->].
    simpl. by rewrite <- app_assoc.
Qed.

Lemma namelist_RealGetContents directory :
  namelist (RealGetContents directory) = map filename directory.
Proof.
  unfold namelist, RealGetContents.
  by destruct (RealGetContents_foldl directory
                 {| filelist := []; NameToInfo := ∅ |}) as [-> _].
Qed.

Lemma NameToInfo_later_names (after : list ZipInfo) (m : gmap string ZipInfo)
      (name : string) :
  Forall (fun z => filename z <> name) after ->
  foldl (fun m zi => <[filename zi := zi]> m) m after !! name = m !! name.
Proof.
  intros Hafter. revert m.
  induction Hafter as [|zi after Hne _ IH]; intros m; simpl; [reflexivity|].
  rewrite IH. by apply lookup_insert_ne.
Qed.

(** [read] by name gives the data of the last member of that name. *)
Lemma read_RealGetContents before zinfo after :
  Forall (fun z => filename z <> filename zinfo) after ->
  read (RealGetContents (before ++ zinfo :: after)) (filename zinfo)
  = member_data zinfo.
Proof.
  intros Hafter. unfold read, RealGetContents.
  destruct (RealGetContents_foldl (before ++ zinfo :: after)
              {| filelist := []; NameToInfo := ∅ |}) as [_ ->].
  rewrite foldl_app. simpl.
  rewrite NameToInfo_later_names by exact Hafter.
  by rewrite lookup_insert_eq.
Qed.

Lemma endswith_kml_nonempty (name : string) :
  endswith name ".kml" = true -> String.eqb name "" = false.
Proof. destruct name; [discriminate|reflexivity]. Qed.

Lemma find_kml_none (names : list string) :
  Forall (fun name => endswith name ".kml" = false) names ->
  find_kml names = None.
Proof.
  induction 1 as [|name names Hn _ IH]; simpl; [reflexivity|].
  by rewrite Hn.
Qed.

Lemma find_kml_first (before : list string) name (after : list string) :
  Forall (fun name => endswith name ".kml" = false) before ->
  endswith name ".kml" = true ->
  find_kml (before ++ name :: after) = Some name.
Proof.
  intros Hb Hn. induction Hb as [|b before Hb _ IH]; simpl.
  - by rewrite Hn.
  - by rewrite Hb.
Qed.

Section Archive.
Context {L : Libraries}.

(** C6: when the bytes are not a valid archive, or are an archive none
    of whose member names ends in [.kml], [parse_kmz_file] returns
    (None, None); being the value of a [try/except Exception] block, it
    returns and does not raise. *)
Theorem no_markup_entry_yields_absence kmz_file :
  (exists e, read_directory kmz_file = Raise e)
  \/ (exists directory,
        read_directory kmz_file = Return directory
        /\ Forall (fun z => endswith (filename z) ".kml" = false) directory)
  -> parse_kmz_file kmz_file = (None, None).
Proof.
  unfold parse_kmz_file, parse_kmz_file_body, ZipFile_open.
  intros [[e ->]|(directory & -> & Hnone)]; simpl; [reflexivity|].
  rewrite namelist_RealGetContents, find_kml_none; [reflexivity|].
  by apply Forall_map.
Qed.

(** C8 (amended): in a valid archive, when [zinfo] is the first member
    in directory order whose name ends in [.kml], no later member has the
    same name as [zinfo], and [zinfo] decompresses to [kml_data], then
    [parse_kmz_file] returns what [parse_kml_data] returns on
    [kml_data]; later members with other names, ending in [.kml] or not,
    play no part. *)
Theorem parse_kmz_file_first_entry kmz_file directory zinfo after kml_data :
  read_directory kmz_file = Return directory ->
  first_markup_entry directory zinfo after ->
  Forall (fun z => filename z <> filename zinfo) after ->
  member_data zinfo = Return kml_data ->
  parse_kmz_file kmz_file = parse_kml_data kml_data.
Proof.
  intros Hd (before & -> & Hbefore & Hkml) Hafter Hdata.
  unfold parse_kmz_file, parse_kmz_file_body, ZipFile_open.
  rewrite Hd. simpl.
  rewrite namelist_RealGetContents, map_app. simpl.
  rewrite find_kml_first; [|by apply Forall_map|exact Hkml].
  rewrite endswith_kml_nonempty by exact Hkml.
  rewrite read_RealGetContents by exact Hafter.
  rewrite Hdata. reflexivity.
Qed.

Lemma parse_kmz_file_some kmz_file geojson center :
  parse_kmz_file kmz_file = (Some geojson, center) ->
  exists kml_data, parse_kml_data kml_data = (Some geojson, center).
Proof.
  unfold parse_kmz_file, parse_kmz_file_body.
  destruct (ZipFile_open kmz_file) as [kmz|e]; simpl; [|discriminate].
  destruct (find_kml (namelist kmz)) as [name|]; [|discriminate].
  destruct (String.eqb name ""); [discriminate|].
  destruct (read kmz name) as [kml_data|e]; simpl; [eauto|discriminate].
Qed.
End Archive.

Lemma no_markup_entry_yields_absence_witness :
  parse_kmz_file (L := test_double) "This is not a KMZ file" = (None, None)
  /\ parse_kmz_file (L := test_double) "other" = (None, None).
Proof.
  split.
  - apply (no_markup_entry_yields_absence (L := test_double)).
    left. eexists. reflexivity.
  - apply (no_markup_entry_yields_absence (L := test_double)).
    right. eexists. split; [reflexivity|]. repeat constructor.
Defined.

(** C8 as stated fails on the archive "twice": its first member named
    [doc.kml] is the first whose name ends in [.kml] and holds the route
    document, yet what is parsed is the second member of that name. *)
Lemma first_entry_not_always_parsed :
  let zinfo := {| filename := "doc.kml"; member_data := Return "route" |} in
  let after := [ {| filename := "doc.kml"; member_data := Return "bare" |} ] in
  read_directory (Libraries := test_double) "twice" = Return (zinfo :: after)
  /\ first_markup_entry (zinfo :: after) zinfo after
  /\ member_data zinfo = Return "route"
  /\ parse_kmz_file (L := test_double) "twice"
     = parse_kml_data (L := test_double) "bare"
  /\ parse_kmz_file (L := test_double) "twice"
     <> parse_kml_data (L := test_double) "route".
Proof.
  split_and!; [reflexivity| |reflexivity|reflexivity|].
  - exists []. split_and!; [reflexivity|constructor|reflexivity].
  - intros Heq. apply (f_equal snd) in Heq. vm_compute in Heq. discriminate.
Qed.

Lemma parse_kmz_file_first_entry_witness :
  parse_kmz_file (L := test_double) "kmz"
  = parse_kml_data (L := test_double) "route".
Proof.
  apply (parse_kmz_file_first_entry (L := test_double) "kmz" _
           {| filename := "doc.kml"; member_data := Return "route" |}
           [ {| filename := "old.kml"; member_data := Return "unnamed" |} ]
           "route" eq_refl).
  - exists [ {| filename := "logo.png"; member_data := Return "png" |} ].
    split_and!; [reflexivity|repeat constructor|reflexivity].
  - repeat constructor. simpl. discriminate.
  - reflexivity.
Defined.

(** ** Rounding *)

Lemma round_half_even_nonneg (q : Q) : (0 <= q)%Q -> (0 <= round_half_even q)%Z.
Proof.
  intros Hq. unfold round_half_even.
  assert (Hf : (0 <= Qfloor q)%Z).
  { change 0%Z with (Qfloor 0). by apply Qfloor_resp_le. }
  destruct (q - inject_Z (Qfloor q) ?= 1 # 2)%Q;
    [destruct (Z.even (Qfloor q))|..]; lia.
Qed.

Lemma py_round_nonneg (q : Q) (ndigits : nat) :
  (0 <= q)%Q -> (0 <= py_round q ndigits)%Q.
Proof.
  intros Hq. unfold py_round.
  assert (Hs : (0 < inject_Z (10 ^ Z.of_nat ndigits))%Q).
  { change 0%Q with (inject_Z 0). rewrite <- Zlt_Qlt. lia. }
  apply Qle_shift_div_l; [exact Hs|]. rewrite Qmult_0_l.
  change 0%Q with (inject_Z 0). rewrite <- Zle_Qle.
  apply round_half_even_nonneg, Qmult_le_0_compat; [exact Hq|].
  by apply Qlt_le_weak.
Qed.

(** ** The path distance *)

Section Distance.
Context {L : Libraries}.

Lemma str_in_linear geom :
  str_in (geom_type geom) ["LineString"; "MultiLineString"] = is_linear geom.
Proof. by destruct geom. Qed.

Lemma add_feature_length_shaped total feature geom :
  feature_geometry feature geom ->
  add_feature_length total feature
  = if is_linear geom then
      let* projected_geom := transform geom in
      Return (total + geom_length projected_geom)%Q
    else Return total.
Proof.
  intros (g & Hg & Hs). unfold add_feature_length.
  rewrite Hg. cbn [rbind]. rewrite Hs. cbn [rbind]. by rewrite str_in_linear.
Qed.

Lemma add_feature_length_raises total feature :
  distance_raises feature ->
  exists e, add_feature_length total feature = Raise e.
Proof.
  intros [[e He]|[(g & e & Hg & Hs)|(geom & e & Hf & Hl & Ht)]].
  - exists e. unfold add_feature_length. by rewrite He.
  - exists e. unfold add_feature_length. rewrite Hg. simpl. by rewrite Hs.
  - exists e. rewrite (add_feature_length_shaped _ _ _ Hf), Hl, Ht.
    reflexivity.
Qed.

(** A turn of the loop leaves the total as it is or adds a length. *)
Lemma add_feature_length_inv total feature total' :
  add_feature_length total feature = Return total' ->
  exists geom,
    feature_geometry feature geom
    /\ (is_linear geom = false /\ total' = total
        \/ is_linear geom = true
           /\ exists projected_geom,
               transform geom = Return projected_geom
               /\ total' = (total + geom_length projected_geom)%Q).
Proof.
  unfold add_feature_length, feature_geometry.
  destruct (getitem feature "geometry") as [g|e] eqn:Hg; [|discriminate].
  cbn [rbind]. destruct (shape g) as [geom|e] eqn:Hs; [|discriminate].
  cbn [rbind]. rewrite str_in_linear.
  destruct (is_linear geom) eqn:Hl.
  - destruct (transform geom) as [p|e] eqn:Ht; [|discriminate].
    simpl. intros [= <-]. exists geom. split; [eauto|]. right. eauto.
  - intros [= <-]. exists geom. split; [eauto|]. left. auto.
Qed.

Lemma fold_each_lengths features : forall geoms projected total,
  Forall2 feature_geometry features geoms ->
  Forall2 (fun geom p => transform geom = Return p)
          (List.filter is_linear geoms) projected ->
  fold_each add_feature_length features total
  = Return (foldl Qplus total (map geom_length projected)).
Proof.
  induction features as [|f features IH]; intros geoms projected total Hg Hp;
    inversion Hg as [|? geom ? geoms' Hf Hg']; subst; simpl in *.
  - inversion Hp; subst. reflexivity.
  - rewrite (add_feature_length_shaped _ _ _ Hf).
    destruct (is_linear geom).
    + inversion Hp as [|? p ? projected' Ht Hp']; subst.
      rewrite Ht. simpl. eauto.
    + simpl. eauto.
Qed.

Lemma fold_each_raises features : forall total,
  Exists distance_raises features ->
  exists e, fold_each add_feature_length features total = Raise e.
Proof.
  induction features as [|f features IH]; intros total Hex;
    inversion Hex as [? ? Hf|? ? Hfs]; subst; simpl.
  - destruct (add_feature_length_raises total f Hf) as [e ->]. eauto.
  - destruct (add_feature_length total f) as [total'|e]; simpl; eauto.
Qed.

Lemma fold_each_nonneg features : forall total total',
  (forall geom, 0 <= geom_length geom)%Q ->
  (0 <= total)%Q ->
  fold_each add_feature_length features total = Return total' ->
  (0 <= total')%Q.
Proof.
  induction features as [|f features IH]; intros total total' Hlen Ht;
    simpl.
  - by intros [= <-].
  - destruct (add_feature_length total f) as [t|e] eqn:Hf; [|discriminate].
    simpl. apply IH; [exact Hlen|].
    apply add_feature_length_inv in Hf
      as (geom & _ & [[_ ->]|(_ & p & _ & ->)]); [exact Ht|].
    exact (Qplus_le_compat 0 total 0 (geom_length p) Ht (Hlen p)).
Qed.

Lemma fold_each_not_linear features : forall total total',
  (forall feature geom,
      feature ∈ features -> feature_geometry feature geom ->
      is_linear geom = false) ->
  fold_each add_feature_length features total = Return total' ->
  total' = total.
Proof.
  induction features as [|f features IH]; intros total total' Hnl; simpl.
  - by intros [= <-].
  - destruct (add_feature_length total f) as [t|e] eqn:Hf; [|discriminate].
    simpl. intros Hrest.
    apply IH in Hrest; [|intros; eapply Hnl; [by right|eassumption]].
    apply add_feature_length_inv in Hf
      as (geom & Hg & [[_ ->]|(Hl & _)]); [exact Hrest|].
    rewrite (Hnl f geom) in Hl; [discriminate|by left|exact Hg].
Qed.

Lemma calculate_path_distance_features geojson_data features :
  geojson_data !! "features" = Some (PList features) ->
  calculate_path_distance geojson_data
  = match fold_each add_feature_length features 0%Q with
    | Return total_distance => Some (py_round (total_distance / 1000) 2)
    | Raise _ => None
    end.
Proof.
  intros Hf. unfold calculate_path_distance, calculate_path_distance_body.
  rewrite Hf. simpl.
  by destruct (fold_each add_feature_length features 0%Q).
Qed.

Lemma calculate_path_distance_inv geojson_data r :
  calculate_path_distance geojson_data = Some r ->
  exists features total_distance,
    fold_each add_feature_length features 0%Q = Return total_distance
    /\ r = py_round (total_distance / 1000) 2.
Proof.
  unfold calculate_path_distance, calculate_path_distance_body.
  destruct (py_iter _) as [features|e]; simpl; [|discriminate].
  destruct (fold_each add_feature_length features 0%Q) as [t|e] eqn:Hf;
    simpl; [|discriminate].
  intros [= <-]. eauto.
Qed.
End Distance.

Section DistanceClaims.
Context {L : Libraries}.

(** C4: [calculate_path_distance] returns the sum of the lengths of the
    reprojected LineString and MultiLineString features, divided by
    1000 and rounded to two decimals; features of any other kind add
    nothing, so a collection without linear features yields None or
    zero; and, lengths being non-negative, the result is never
    negative. *)
Theorem path_distance_sums_linear_features :
  (forall geojson_data features geoms projected,
      geojson_data !! "features" = Some (PList features) ->
      Forall2 feature_geometry features geoms ->
      Forall2 (fun geom p => transform geom = Return p)
              (List.filter is_linear geoms) projected ->
      calculate_path_distance geojson_data
      = Some (py_round (py_sum (map geom_length projected) / 1000) 2))
  /\ (forall geojson_data features,
      geojson_data !! "features" = Some (PList features) ->
      (forall feature geom,
          feature ∈ features -> feature_geometry feature geom ->
          is_linear geom = false) ->
      calculate_path_distance geojson_data = None
      \/ exists r,
          calculate_path_distance geojson_data = Some r /\ (r == 0)%Q)
  /\ (forall geojson_data r,
      (forall geom, 0 <= geom_length geom)%Q ->
      calculate_path_distance geojson_data = Some r -> (0 <= r)%Q).
Proof.
  split_and!.
  - intros geojson_data features geoms projected Hf Hg Hp.
    rewrite (calculate_path_distance_features _ _ Hf).
    by rewrite (fold_each_lengths _ _ _ _ Hg Hp).
  - intros geojson_data features Hf Hnl.
    rewrite (calculate_path_distance_features _ _ Hf).
    destruct (fold_each add_feature_length features 0%Q) as [t|e] eqn:Ht;
      [right|by left].
    apply fold_each_not_linear in Ht as ->; [|exact Hnl].
    eexists. split; reflexivity.
  - intros geojson_data r Hlen Hr.
    apply calculate_path_distance_inv in Hr
      as (features & total & Ht & ->).
    apply fold_each_nonneg in Ht; [|exact Hlen|apply Qle_refl].
    apply py_round_nonneg, Qle_shift_div_l; [reflexivity|].
    by rewrite Qmult_0_l.
Qed.

(** Failures that raise: when handling any feature of the collection
    raises, [calculate_path_distance] returns None, whatever was summed
    before; and in the upload handler a collection and center obtained
    from [parse_kmz_file] are written all the same when the distance is
    None, the distance field alone being left as the form bound it. *)
Theorem distance_failure_is_local :
  (forall geojson_data features,
      geojson_data !! "features" = Some (PList features) ->
      Exists distance_raises features ->
      calculate_path_distance geojson_data = None)
  /\ (forall instance kmz_file geojson lat lon,
      parse_kmz_file kmz_file = (Some geojson, Some (lat, lon)) ->
      calculate_path_distance geojson = None ->
      process_kmz_upload instance kmz_file
      = {| geojson_data := Some geojson;
           map_center_lat := Some lat;
           map_center_lon := Some lon;
           path_distance_km := path_distance_km instance |}).
Proof.
  split.
  - intros geojson_data features Hf Hex.
    rewrite (calculate_path_distance_features _ _ Hf).
    by destruct (fold_each_raises features 0%Q Hex) as [e ->].
  - intros instance kmz_file geojson lat lon Hp Hd.
    unfold process_kmz_upload. rewrite Hp, Hd.
    apply parse_kmz_file_some in Hp as [kml_data Hp].
    apply parse_kml_data_collects in Hp as (top & geoms & _ & _ & Hf & _).
    assert (Hne : geojson <> ∅).
    { intros ->. by rewrite lookup_empty in Hf. }
    simpl. by rewrite bool_decide_eq_false_2.
Qed.

(** C10: for a mapping without a [features] key
    [calculate_path_distance] returns the number zero, not None. *)
Theorem missing_features_key_gives_zero geojson_data :
  geojson_data !! "features" = None ->
  exists r, calculate_path_distance geojson_data = Some r /\ (r == 0)%Q.
Proof.
  intros Hf. unfold calculate_path_distance, calculate_path_distance_body.
  rewrite Hf. simpl. eexists. split; reflexivity.
Qed.
End DistanceClaims.

Lemma test_double_length_nonneg (geom : Geometry) :
  (0 <= geom_length (Libraries := test_double) geom)%Q.
Proof. destruct geom; unfold Qle; simpl; lia. Qed.

Lemma path_distance_sums_linear_features_witness :
  calculate_path_distance (L := test_double)
    (collection [line_feature; point_feature])
  = Some (py_round
            (py_sum (map (geom_length (Libraries := test_double)) [sf_line])
             / 1000) 2)
  /\ (calculate_path_distance (L := test_double) (collection [point_feature])
      = None
      \/ exists r,
          calculate_path_distance (L := test_double)
            (collection [point_feature]) = Some r /\ (r == 0)%Q)
  /\ (0 <= py_round
            (py_sum (map (geom_length (Libraries := test_double)) [sf_line])
             / 1000) 2)%Q.
Proof.
  destruct (path_distance_sums_linear_features (L := test_double))
    as (Hsum & Hzero & Hnonneg).
  assert (Hline : feature_geometry (L := test_double) line_feature sf_line).
  { eexists. split; reflexivity. }
  assert (Hpoint : feature_geometry (L := test_double) point_feature sf_point).
  { eexists. split; reflexivity. }
  assert (Hd : calculate_path_distance (L := test_double)
                 (collection [line_feature; point_feature])
               = Some (py_round
                   (py_sum (map (geom_length (Libraries := test_double))
                                [sf_line]) / 1000) 2)).
  { apply (Hsum _ [line_feature; point_feature] [sf_line; sf_point] [sf_line]).
    - reflexivity.
    - repeat constructor; assumption.
    - repeat constructor. }
  split_and!.
  - exact Hd.
  - apply (Hzero (collection [point_feature]) [point_feature] eq_refl).
    intros feature geom Hin Hg. apply list_elem_of_singleton in Hin as ->.
    destruct Hg as (g & [= <-] & [= <-]). reflexivity.
  - exact (Hnonneg _ _ test_double_length_nonneg Hd).
Defined.

Lemma distance_failure_is_local_witness :
  calculate_path_distance (L := test_double)
    (collection [line_feature; broken_feature]) = None
  /\ exists geojson lat lon,
      parse_kmz_file (L := failing_projection) "kmz"
      = (Some geojson, Some (lat, lon))
      /\ calculate_path_distance (L := failing_projection) geojson = None
      /\ process_kmz_upload (L := failing_projection)
           {| geojson_data := None; map_center_lat := None;
              map_center_lon := None; path_distance_km := None |} "kmz"
         = {| geojson_data := Some geojson;
              map_center_lat := Some lat;
              map_center_lon := Some lon;
              path_distance_km := None |}.
Proof.
  split.
  - apply (proj1 (distance_failure_is_local (L := test_double))
             (collection [line_feature; broken_feature])
             [line_feature; broken_feature] eq_refl).
    apply Exists_cons_tl, Exists_cons_hd. left. eexists. reflexivity.
  - eexists _, _, _. split; [reflexivity|].
    split; [reflexivity|].
    apply (proj2 (distance_failure_is_local (L := failing_projection)));
      reflexivity.
Defined.

Lemma missing_features_key_gives_zero_witness :
  exists r,
    calculate_path_distance (L := test_double) ∅ = Some r /\ (r == 0)%Q.
Proof.
  apply (missing_features_key_gives_zero (L := test_double) ∅).
  reflexivity.
Defined.

(** * Further properties of the code *)

(** ** Induction over a geometry *)

Lemma Geometry_tree_ind (P : Geometry -> Prop) :
  (forall c, P (Point c)) ->
  (forall cs, P (LineString cs)) ->
  (forall cs, P (LinearRing cs)) ->
  (forall shell holes, P (Polygon shell holes)) ->
  (forall gs, Forall P gs -> P (MultiPoint gs)) ->
  (forall gs, Forall P gs -> P (MultiLineString gs)) ->
  (forall gs, Forall P gs -> P (MultiPolygon gs)) ->
  (forall gs, Forall P gs -> P (GeometryCollection gs)) ->
  forall g, P g.
Proof.
  intros HP HL HR HPoly HMP HML HMPoly HGC.
  fix IH 1.
  intros [c|cs|cs|shell holes|gs|gs|gs|gs];
    [apply HP|apply HL|apply HR|apply HPoly
    |apply HMP|apply HML|apply HMPoly|apply HGC];
    induction gs as [|g gs IHgs]; constructor; solve [apply IH|exact IHgs].
Qed.

Lemma flat_map_extract_strip (gs : list Geometry) :
  Forall (fun g => extract_coordinates (strip_holes g)
                   = extract_coordinates g) gs ->
  flat_map extract_coordinates (map strip_holes gs)
  = flat_map extract_coordinates gs.
Proof.
  induction 1 as [|g gs Hg _ IH]; simpl; [reflexivity|].
  by rewrite Hg, IH.
Qed.

(** Interior rings never contribute a coordinate, however deep the
    polygon sits inside multi-part geometries and collections. *)
Theorem extract_coordinates_ignores_holes (geometry : Geometry) :
  extract_coordinates (strip_holes geometry) = extract_coordinates geometry.
Proof.
  induction geometry using Geometry_tree_ind; try reflexivity;
    cbn -[flat_map]; by apply flat_map_extract_strip.
Qed.

(** ** The traversal only appends *)

Section Appending.
Context {L : Libraries}.

Lemma visit_geometry_appends feature st r st' :
  visit_geometry feature st = (r, st') ->
  exists fs cs,
    st' = (st.1 ++ fs, st.2 ++ cs)
    /\ (length fs <= 1)%nat
    /\ (r = Return tt -> carries_geometry feature = true -> length fs = 1%nat).
Proof.
  destruct (carries_geometry feature) eqn:Hc.
  - destruct (visit_geometry_cases feature st Hc)
      as [(geom & _ & ->)|(e & _ & ->)]; intros [= <- <-].
    + eexists _, _. split_and!; [reflexivity|simpl; lia|reflexivity].
    + exists [], []. destruct st. simpl. rewrite !app_nil_r.
      split_and!; [reflexivity|lia|discriminate].
  - rewrite visit_geometry_skip by exact Hc. intros [= <- <-].
    exists [], []. destruct st. simpl. rewrite !app_nil_r.
    split_and!; [reflexivity|lia|discriminate].
Qed.

Lemma for_each_visit_appends entries : forall st r st',
  for_each visit_geometry entries st = (r, st') ->
  exists fs cs,
    st' = (st.1 ++ fs, st.2 ++ cs)
    /\ (length fs <= length entries)%nat
    /\ (r = Return tt ->
        Forall (fun feature => carries_geometry feature = true) entries ->
        length fs = length entries).
Proof.
  induction entries as [|f entries IH]; intros st r st'.
  - intros [= <- <-]. exists [], []. destruct st. simpl.
    rewrite !app_nil_r. auto.
  - cbn [for_each]. unfold mbindM.
    destruct (visit_geometry f st) as [[[]|e] st1] eqn:Hv.
    + intros Hrest.
      apply visit_geometry_appends in Hv as (fs1 & cs1 & -> & Hle1 & Heq1).
      apply IH in Hrest as (fs2 & cs2 & -> & Hle2 & Heq2).
      exists (fs1 ++ fs2), (cs1 ++ cs2). simpl. rewrite !app_assoc.
      split_and!; [reflexivity|rewrite length_app; simpl; lia|].
      intros Hr Hall. inversion Hall; subst.
      rewrite length_app, Heq1, Heq2 by auto. reflexivity.
    + intros [= <- <-].
      apply visit_geometry_appends in Hv as (fs1 & cs1 & -> & Hle1 & _).
      exists fs1, cs1. split_and!; [reflexivity|simpl; lia|discriminate].
Qed.

(** Whatever [features_from_document] does, and also when it raises, the
    two lists keep what they held and only grow at the end; at most one
    feature is appended per entry below [document] that carries a geometry,
    and exactly one when the call returns. *)
Theorem features_from_document_only_appends document st r st' :
  features_from_document document st = (r, st') ->
  exists fs cs,
    st' = (st.1 ++ fs, st.2 ++ cs)
    /\ (length fs <= length (placemarks_below document))%nat
    /\ (r = Return tt -> length fs = length (placemarks_below document)).
Proof.
  rewrite features_from_document_flat. intros Hf.
  apply for_each_visit_appends in Hf as (fs & cs & -> & Hle & Heq).
  exists fs, cs. split_and!; auto.
  intros Hr. apply Heq; [exact Hr|apply placemarks_below_carry].
Qed.
End Appending.

Lemma features_from_document_only_appends_witness :
  let document := folder damaged_document in
  let st := ([PStr "kept"], [XY 1 2]) in
  exists r st',
    features_from_document (L := test_double) document st = (r, st')
    /\ exists fs cs,
      st' = (st.1 ++ fs, st.2 ++ cs)
      /\ (length fs <= length (placemarks_below document))%nat
      /\ (r = Return tt -> length fs = length (placemarks_below document)).
Proof.
  intros document st. eexists _, _. split; [reflexivity|].
  apply (features_from_document_only_appends (L := test_double)
           document st _ _ eq_refl).
Defined.

(** ** When the extraction succeeds, and what it returns *)

Section Success.
Context {L : Libraries}.

(** When both parsers accept the markup and the geometry of every entry
    below the top-level entries converts, [parse_kml_data] returns the
    collection with one feature per such entry, in document order, and the
    center of their coordinates: it does not return (None, None). *)
Theorem well_formed_document_parses kml_data top geoms :
  etree_fromstring kml_data = Return tt ->
  KML_from_string kml_data = Return top ->
  Forall2 shaped (flat_map placemarks_below top) geoms ->
  parse_kml_data kml_data
  = (Some {[ "type" := PStr "FeatureCollection";
             "features" :=
               PList (zip_with feature_dict
                        (flat_map placemarks_below top) geoms) ]},
     center_of (flat_map extract_coordinates geoms)).
Proof.
  intros Het Hk Hgs.
  destruct (parse_kml_data_cases kml_data)
    as [(top' & geoms' & _ & Hk' & Hgs' & ->)|[Hr _]].
  - assert (top' = top) as -> by congruence.
    by rewrite (Forall2_shaped_functional _ _ _ Hgs' Hgs).
  - exfalso.
    destruct Hr as [[e He]|[[e He]|(top' & feature & Hk' & Hin & Hf)]];
      [congruence..|].
    assert (top' = top) as -> by congruence.
    eapply Forall2_shaped_no_raise; [exact Hgs|].
    apply Exists_exists. eauto.
Qed.

Lemma zip_with_feature_dict_shape entries geoms :
  Forall is_feature_dict (zip_with feature_dict entries geoms).
Proof.
  revert geoms. induction entries as [|f entries IH]; intros [|g geoms];
    simpl; constructor; [|apply IH].
  eexists _, _. split_and!; reflexivity.
Qed.

(** A collection returned by [parse_kml_data] has the keys [type] and
    [features] and no other; [type] is 'FeatureCollection', [features] is
    a list, and every element of it is a dictionary with the keys [type]
    (= 'Feature'), [geometry] and [properties], the latter with the keys
    [name] and [description] and no other. *)
Theorem returned_collection_shape kml_data geojson center :
  parse_kml_data kml_data = (Some geojson, center) ->
  dom geojson = ({[ "type"; "features" ]} : gset string)
  /\ geojson !! "type" = Some (PStr "FeatureCollection")
  /\ exists features,
      geojson !! "features" = Some (PList features)
      /\ Forall is_feature_dict features.
Proof.
  intros Hp.
  destruct (parse_kml_data_cases kml_data)
    as [(top & geoms & _ & _ & _ & Heq)|[_ Heq]];
    rewrite Heq in Hp; [|discriminate].
  injection Hp as <- <-.
  split_and!; [reflexivity..|].
  eexists. split; [reflexivity|apply zip_with_feature_dict_shape].
Qed.
End Success.

Lemma well_formed_document_parses_witness :
  exists feature,
    parse_kml_data (L := test_double) "route"
    = (Some {[ "type" := PStr "FeatureCollection";
               "features" := PList [feature] ]},
       center_of (extract_coordinates sf_line))
    /\ feature_property feature "name" = Some (PStr "Circuit Route").
Proof.
  eexists. split.
  - apply (well_formed_document_parses (L := test_double) "route"
             route_document [sf_line] eq_refl eq_refl).
    repeat constructor. eexists. split; reflexivity.
  - reflexivity.
Defined.

Lemma returned_collection_shape_witness :
  exists geojson features,
    (parse_kml_data (L := test_double) "unnamed").1 = Some geojson
    /\ geojson !! "features" = Some (PList features)
    /\ Forall is_feature_dict features.
Proof.
  destruct (parse_kml_data (L := test_double) "unnamed")
    as [[geojson|] center] eqn:Hp; [|discriminate Hp].
  destruct (returned_collection_shape (L := test_double) _ _ _ Hp)
    as (_ & _ & features & Hf & Hall).
  exists geojson, features. auto.
Defined.

Lemma absence_only_on_error_witness :
  parse_kml_data (L := test_double) "damaged" = (None, None)
  /\ parsing_raises (L := test_double) "damaged".
Proof.
  split; [reflexivity|].
  apply (absence_only_on_error (L := test_double) "damaged"). reflexivity.
Defined.

(** ** Which member of the archive is parsed *)

Lemma substring_whole (s : string) :
  String.substring 0 (String.length s) s = s.
Proof. induction s as [|c s IH]; simpl; [reflexivity|by rewrite IH]. Qed.

Lemma substring_split (s : string) : forall k,
  (k <= String.length s)%nat ->
  String.substring 0 k s
  +:+ String.substring k (String.length s - k) s = s.
Proof.
  induction s as [|c s IH]; intros [|k] Hk; simpl in *; try lia.
  - reflexivity.
  - by rewrite substring_whole.
  - change (String c (String.substring 0 k s
                      +:+ String.substring k (String.length s - k) s)
            = String c s).
    f_equal. apply IH. lia.
Qed.

Lemma endswith_suffix (s p : string) :
  endswith s p = true -> exists stem, s = stem +:+ p.
Proof.
  unfold endswith. intros [Hle Heq]%andb_prop.
  apply Nat.leb_le in Hle. apply String.eqb_eq in Heq.
  pose proof (substring_split s (String.length s - String.length p)) as Hs.
  replace (String.length s - (String.length s - String.length p))%nat
    with (String.length p) in Hs by lia.
  rewrite Heq in Hs.
  exists (String.substring 0 (String.length s - String.length p) s).
  symmetry. apply Hs. lia.
Qed.

Lemma find_kml_some (names : list string) (name : string) :
  find_kml names = Some name ->
  name ∈ names /\ endswith name ".kml" = true.
Proof.
  induction names as [|n names IH]; simpl; [discriminate|].
  destruct (endswith n ".kml") eqn:Hn.
  - intros [= <-]. split; [by left|exact Hn].
  - intros Hf. destruct (IH Hf). split; [by right|assumption].
Qed.

Lemma NameToInfo_member (directory : list ZipInfo)
      (m : gmap string ZipInfo) (name : string) (zinfo : ZipInfo) :
  foldl (fun m zi => <[filename zi := zi]> m) m directory !! name
  = Some zinfo ->
  zinfo ∈ directory /\ filename zinfo = name \/ m !! name = Some zinfo.
Proof.
  revert m. induction directory as [|zi directory IH]; intros m; simpl;
    [by right|].
  intros [[Hin Hn]|Hm]%IH.
  - left. split; [by right|exact Hn].
  - destruct (decide (filename zi = name)) as [<-|Hne].
    + rewrite lookup_insert_eq in Hm. injection Hm as <-.
      left. split; [by left|reflexivity].
    + rewrite lookup_insert_ne in Hm by exact Hne. by right.
Qed.

Lemma read_member (directory : list ZipInfo) (name : string) kml_data :
  read (RealGetContents directory) name = Return kml_data ->
  exists zinfo,
    zinfo ∈ directory /\ filename zinfo = name
    /\ member_data zinfo = Return kml_data.
Proof.
  unfold read, RealGetContents.
  destruct (RealGetContents_foldl directory
              {| filelist := []; NameToInfo := ∅ |}) as [_ ->]. simpl.
  destruct (foldl _ _ directory !! name) as [zinfo|] eqn:Hl; [|discriminate].
  intros Hd. apply NameToInfo_member in Hl as [[Hin Hn]|Hl].
  - eauto.
  - by rewrite lookup_empty in Hl.
Qed.

Section Members.
Context {L : Libraries}.

(** The member that [parse_kmz_file] parses is the last one that carries
    the first name ending in [.kml]. *)
Lemma parse_kmz_file_member kmz_file directory name before zinfo after :
  read_directory kmz_file = Return directory ->
  find_kml (map filename directory) = Some name ->
  directory = before ++ zinfo :: after ->
  filename zinfo = name ->
  Forall (fun z => filename z <> name) after ->
  parse_kmz_file kmz_file
  = match member_data zinfo with
    | Return kml_data => parse_kml_data kml_data
    | Raise _ => (None, None)
    end.
Proof.
  intros Hd Hfind -> <- Hafter.
  unfold parse_kmz_file, parse_kmz_file_body, ZipFile_open.
  rewrite Hd. cbn [rbind].
  rewrite namelist_RealGetContents, Hfind.
  apply find_kml_some in Hfind as [_ Hkml].
  rewrite endswith_kml_nonempty by exact Hkml.
  rewrite read_RealGetContents by exact Hafter.
  by destruct (member_data zinfo).
Qed.

(** With the members in directory order, [parse_kmz_file] takes the first
    name that ends in [.kml] and parses the last member of that name; when
    that member cannot be decompressed the result is (None, None). *)
Theorem parse_kmz_file_reads_last_of_name
        kmz_file directory name before zinfo after :
  read_directory kmz_file = Return directory ->
  find_kml (map filename directory) = Some name ->
  directory = before ++ zinfo :: after ->
  filename zinfo = name ->
  Forall (fun z => filename z <> name) after ->
  parse_kmz_file kmz_file
  = match member_data zinfo with
    | Return kml_data => parse_kml_data kml_data
    | Raise _ => (None, None)
    end.
Proof. apply parse_kmz_file_member. Qed.

(** Only one name is tried, the first in directory order that ends in
    [.kml], and only one member, the last that carries that name: when
    that member cannot be decompressed, or its markup raises an error, the
    result is (None, None) whatever the other members hold; a sound
    member under another name ending in [.kml] is not tried. *)
Theorem no_fallback_to_other_names
        kmz_file directory name before zinfo after :
  read_directory kmz_file = Return directory ->
  find_kml (map filename directory) = Some name ->
  directory = before ++ zinfo :: after ->
  filename zinfo = name ->
  Forall (fun z => filename z <> name) after ->
  (exists e, member_data zinfo = Raise e)
  \/ (exists kml_data,
        member_data zinfo = Return kml_data /\ parsing_raises kml_data) ->
  parse_kmz_file kmz_file = (None, None).
Proof.
  intros Hd Hfind Hdir Hname Hafter Hbad.
  rewrite (parse_kmz_file_member kmz_file directory name
             before zinfo after Hd Hfind Hdir Hname Hafter).
  destruct Hbad as [[e ->]|(kml_data & -> & Hr)]; [reflexivity|].
  destruct (parse_kml_data_cases kml_data)
    as [(top & geoms & Het & Hk & Hgs & _)|[_ Heq]]; [exfalso|exact Heq].
  destruct Hr as [[e He]|[[e He]|(top' & feature & Hk' & Hin & Hf)]];
    [congruence..|].
  assert (top' = top) as -> by congruence.
  eapply Forall2_shaped_no_raise; [exact Hgs|].
  apply Exists_exists. eauto.
Qed.

(** A collection returned by [parse_kmz_file] was parsed from the data of
    a member of the archive whose name is some stem followed by [.kml]. *)
Theorem parsed_member_is_markup kmz_file geojson center :
  parse_kmz_file kmz_file = (Some geojson, center) ->
  exists directory zinfo stem kml_data,
    read_directory kmz_file = Return directory
    /\ zinfo ∈ directory
    /\ filename zinfo = stem +:+ ".kml"
    /\ member_data zinfo = Return kml_data
    /\ parse_kml_data kml_data = (Some geojson, center).
Proof.
  unfold parse_kmz_file, parse_kmz_file_body, ZipFile_open.
  destruct (read_directory kmz_file) as [directory|e]; [|discriminate].
  cbn [rbind]. rewrite namelist_RealGetContents.
  destruct (find_kml (map filename directory)) as [name|] eqn:Hfind;
    [|discriminate].
  apply find_kml_some in Hfind as [_ Hkml].
  destruct (String.eqb name ""); [discriminate|].
  destruct (read (RealGetContents directory) name) as [kml_data|e] eqn:Hread;
    [|discriminate].
  cbn [rbind try_except]. intros Hp.
  apply read_member in Hread as (zinfo & Hin & Hn & Hdata).
  apply endswith_suffix in Hkml as [stem ->].
  exists directory, zinfo, stem, kml_data. auto.
Qed.
End Members.

Lemma parse_kmz_file_reads_last_of_name_witness :
  parse_kmz_file (L := test_double) "twice"
  = parse_kml_data (L := test_double) "bare".
Proof.
  apply (parse_kmz_file_reads_last_of_name (L := test_double) "twice" _
           "doc.kml"
           [ {| filename := "doc.kml"; member_data := Return "route" |} ]
           {| filename := "doc.kml"; member_data := Return "bare" |} []
           eq_refl eq_refl eq_refl eq_refl).
  constructor.
Defined.

Lemma no_fallback_to_other_names_witness :
  parse_kmz_file (L := test_double_mixed) "mixed" = (None, None)
  /\ parse_kmz_file (L := test_double_mixed) "encrypted" = (None, None)
  /\ (parse_kml_data (L := test_double_mixed) "route").1 <> None.
Proof.
  split_and!.
  - apply (no_fallback_to_other_names (L := test_double_mixed) "mixed" _
             "doc.kml" []
             {| filename := "doc.kml"; member_data := Return "damaged" |}
             [ {| filename := "good.kml"; member_data := Return "route" |} ]
             eq_refl eq_refl eq_refl eq_refl).
    + repeat constructor. simpl. discriminate.
    + right. exists "damaged". split; [reflexivity|].
      right; right.
      exists damaged_document,
        (KmlObject None (Holds (PStr "LineString of one point"))
                   Missing Missing).
      split_and!; [reflexivity|simpl; repeat constructor|].
      eexists _, _. split; reflexivity.
  - apply (no_fallback_to_other_names (L := test_double_mixed)
             "encrypted" _ "doc.kml" []
             {| filename := "doc.kml";
                member_data := Raise (LibraryError "File is encrypted") |}
             [ {| filename := "good.kml"; member_data := Return "route" |} ]
             eq_refl eq_refl eq_refl eq_refl).
    + repeat constructor. simpl. discriminate.
    + left. eexists. reflexivity.
  - discriminate.
Defined.

Lemma parsed_member_is_markup_witness :
  exists geojson center directory zinfo stem kml_data,
    parse_kmz_file (L := test_double) "kmz" = (Some geojson, center)
    /\ read_directory (Libraries := test_double) "kmz" = Return directory
    /\ zinfo ∈ directory
    /\ filename zinfo = stem +:+ ".kml"
    /\ member_data zinfo = Return kml_data
    /\ parse_kml_data (L := test_double) kml_data = (Some geojson, center).
Proof.
  destruct (parse_kmz_file (L := test_double) "kmz")
    as [[geojson|] center] eqn:Hp; [|discriminate Hp].
  destruct (parsed_member_is_markup (L := test_double) _ _ _ Hp)
    as (directory & zinfo & stem & kml_data & H).
  exists geojson, center, directory, zinfo, stem, kml_data. auto.
Defined.

(** ** From a returned distance back to the features, and end to end *)

Section DistanceFurther.
Context {L : Libraries}.

Lemma fold_each_lengths_inv features : forall total total',
  fold_each add_feature_length features total = Return total' ->
  exists geoms projected,
    Forall2 feature_geometry features geoms
    /\ Forall2 (fun geom p => transform geom = Return p)
               (List.filter is_linear geoms) projected
    /\ total' = foldl Qplus total (map geom_length projected).
Proof.
  induction features as [|f features IH]; intros total total'; simpl.
  - intros [= <-]. exists [], []. split_and!; constructor.
  - destruct (add_feature_length total f) as [t|e] eqn:Hf; [|discriminate].
    cbn [rbind]. intros Hrest.
    apply IH in Hrest as (geoms & projected & Hg & Hp & ->).
    apply add_feature_length_inv in Hf
      as (geom & Hgeom & [[Hl ->]|(Hl & p & Hp' & ->)]).
    + exists (geom :: geoms), projected.
      split_and!; [by constructor|simpl; by rewrite Hl|reflexivity].
    + exists (geom :: geoms), (p :: projected).
      split_and!; [by constructor|simpl; rewrite Hl; by constructor|].
      reflexivity.
Qed.

(** A number returned by [calculate_path_distance] accounts for every
    item of [features]: each one is a dictionary whose [geometry] converts,
    each linear one was reprojected, and the number is the rounded sum of
    the lengths of the reprojected linear ones. *)
Theorem returned_distance_accounts_for_every_feature
        geojson features r :
  geojson !! "features" = Some (PList features) ->
  calculate_path_distance geojson = Some r ->
  exists geoms projected,
    Forall2 feature_geometry features geoms
    /\ Forall2 (fun geom p => transform geom = Return p)
               (List.filter is_linear geoms) projected
    /\ r = py_round (py_sum (map geom_length projected) / 1000) 2.
Proof.
  intros Hf. rewrite (calculate_path_distance_features _ _ Hf).
  destruct (fold_each add_feature_length features 0%Q) as [t|e] eqn:Ht;
    [|discriminate].
  intros [= <-].
  apply fold_each_lengths_inv in Ht as (geoms & projected & Hg & Hp & ->).
  exists geoms, projected. auto.
Qed.

Lemma feature_dicts_geometry entries geoms :
  Forall2 shaped entries geoms ->
  Forall (fun geom => shape (mapping geom) = Return geom) geoms ->
  Forall2 feature_geometry (zip_with feature_dict entries geoms) geoms.
Proof.
  induction 1 as [|f g fs gs _ _ IH]; intros Hround;
    inversion Hround; subst; simpl; constructor; [|by apply IH].
  exists (mapping g). split; [reflexivity|assumption].
Qed.

(** End to end: when [shape] gives back each geometry that [mapping]
    wrote into the collection, and each linear one reprojects, the
    distance computed from the collection that [parse_kml_data] returned
    is the rounded sum, over the linear geometries of the entries below
    the top-level entries, of their reprojected lengths. *)
Theorem distance_of_parsed_collection
        kml_data geojson center top geoms projected :
  parse_kml_data kml_data = (Some geojson, center) ->
  KML_from_string kml_data = Return top ->
  Forall2 shaped (flat_map placemarks_below top) geoms ->
  Forall (fun geom => shape (mapping geom) = Return geom) geoms ->
  Forall2 (fun geom p => transform geom = Return p)
          (List.filter is_linear geoms) projected ->
  calculate_path_distance geojson
  = Some (py_round (py_sum (map geom_length projected) / 1000) 2).
Proof.
  intros Hp Hk Hgs Hround Hproj.
  apply parse_kml_data_collects in Hp
    as (top' & geoms' & Hk' & Hgs' & Hf & _).
  assert (top' = top) as -> by congruence.
  rewrite (Forall2_shaped_functional _ _ _ Hgs' Hgs) in Hf.
  rewrite (calculate_path_distance_features _ _ Hf).
  rewrite (fold_each_lengths _ geoms projected);
    [reflexivity|by apply feature_dicts_geometry|exact Hproj].
Qed.
End DistanceFurther.

Lemma returned_distance_accounts_for_every_feature_witness :
  exists r geoms projected,
    calculate_path_distance (L := test_double)
      (collection [point_feature; line_feature]) = Some r
    /\ Forall2 (feature_geometry (L := test_double))
               [point_feature; line_feature] geoms
    /\ Forall2 (fun geom p =>
                  transform (Libraries := test_double) geom = Return p)
               (List.filter is_linear geoms) projected
    /\ r = py_round
             (py_sum (map (geom_length (Libraries := test_double)) projected)
              / 1000) 2.
Proof.
  destruct (calculate_path_distance (L := test_double)
              (collection [point_feature; line_feature]))
    as [r|] eqn:Hd; [|discriminate Hd].
  destruct (returned_distance_accounts_for_every_feature (L := test_double)
              (collection [point_feature; line_feature])
              [point_feature; line_feature] r eq_refl Hd)
    as (geoms & projected & H).
  exists r, geoms, projected. split; [reflexivity|exact H].
Defined.

Lemma distance_of_parsed_collection_witness :
  exists geojson center,
    parse_kml_data (L := test_double) "route" = (Some geojson, center)
    /\ calculate_path_distance (L := test_double) geojson
       = Some (py_round
                 (py_sum (map (geom_length (Libraries := test_double))
                              [sf_line]) / 1000) 2).
Proof.
  eexists _, _. split; [reflexivity|].
  apply (distance_of_parsed_collection (L := test_double) "route" _ _
           route_document [sf_line] [sf_line] eq_refl eq_refl).
  - repeat constructor. eexists. split; reflexivity.
  - repeat constructor.
  - repeat constructor.
Defined.

(** ** The block of the upload handler that deals with the KMZ file

    [process_kmz_upload] runs after [form.is_valid()]: its [instance] is
    [form.instance] as the validated form bound it, so
    [map_center_lat], [map_center_lon] and [path_distance_km] already hold
    the submitted values. *)

Section Upload.
Context {L : Libraries}.

Lemma parse_kmz_file_nonempty kmz_file geojson center :
  parse_kmz_file kmz_file = (Some geojson, center) ->
  truthy (PDict geojson) = true.
Proof.
  intros Hp. apply parse_kmz_file_some in Hp as [kml_data Hp].
  apply parse_kml_data_collects in Hp as (top & geoms & _ & _ & Hf & _).
  simpl. rewrite bool_decide_eq_false_2; [reflexivity|].
  intros ->. by rewrite lookup_empty in Hf.
Qed.

(** What the handler stores, case by case. *)
Lemma process_kmz_upload_cases instance kmz_file :
  process_kmz_upload instance kmz_file
  = match parse_kmz_file kmz_file with
    | (Some g, Some (lat, lon)) =>
        {| geojson_data := Some g;
           map_center_lat := Some lat;
           map_center_lon := Some lon;
           path_distance_km :=
             match calculate_path_distance g with
             | Some d =>
                 if truthy (PNum d) then Some d
                 else path_distance_km instance
             | None => path_distance_km instance
             end |}
    | _ => instance
    end.
Proof.
  unfold process_kmz_upload.
  destruct (parse_kmz_file kmz_file) as [[g|] [[lat lon]|]] eqn:Hp;
    try reflexivity.
  rewrite (parse_kmz_file_nonempty _ _ _ Hp).
  destruct (calculate_path_distance g) as [d|]; [|reflexivity].
  by destruct (truthy (PNum d)).
Qed.

Lemma calculate_path_distance_nonneg geojson r :
  (forall geom, 0 <= geom_length geom)%Q ->
  calculate_path_distance geojson = Some r -> (0 <= r)%Q.
Proof.
  intros Hlen Hr.
  apply calculate_path_distance_inv in Hr as (features & total & Ht & ->).
  apply fold_each_nonneg in Ht; [|exact Hlen|apply Qle_refl].
  apply py_round_nonneg, Qle_shift_div_l; [reflexivity|].
  by rewrite Qmult_0_l.
Qed.

(** The block changes the bound instance only when the archive was
    parsed and at least one coordinate was collected: after a failed parse,
    and also after a sound markup without any coordinate, every field is
    as the form bound it. *)
Theorem kmz_block_changes_instance_only_with_coordinates instance kmz_file :
  process_kmz_upload instance kmz_file <> instance ->
  exists geojson lat lon kml_data top geoms,
    parse_kmz_file kmz_file = (Some geojson, Some (lat, lon))
    /\ parse_kml_data kml_data = (Some geojson, Some (lat, lon))
    /\ KML_from_string kml_data = Return top
    /\ Forall2 shaped (flat_map placemarks_below top) geoms
    /\ flat_map extract_coordinates geoms <> [].
Proof.
  rewrite process_kmz_upload_cases.
  destruct (parse_kmz_file kmz_file) as [[g|] [[lat lon]|]] eqn:Hp;
    try congruence.
  intros _.
  destruct (parse_kmz_file_some _ _ _ Hp) as [kml_data Hk].
  destruct (parse_kml_data_collects _ _ _ Hk)
    as (top & geoms & Htop & Hgs & _ & Hc).
  exists g, lat, lon, kml_data, top, geoms. split_and!; auto.
  intros Hnil. rewrite Hnil in Hc. discriminate.
Qed.

(** For an upload whose features are all of a kind other than LineString
    and MultiLineString the block writes the collection and the center and
    leaves the distance field as the form bound it: the computed zero or
    None is not written. *)
Theorem upload_without_lines_keeps_bound_distance
        instance kmz_file geojson lat lon features :
  parse_kmz_file kmz_file = (Some geojson, Some (lat, lon)) ->
  geojson !! "features" = Some (PList features) ->
  (forall feature geom,
      feature ∈ features -> feature_geometry feature geom ->
      is_linear geom = false) ->
  process_kmz_upload instance kmz_file
  = {| geojson_data := Some geojson;
       map_center_lat := Some lat;
       map_center_lon := Some lon;
       path_distance_km := path_distance_km instance |}.
Proof.
  intros Hp Hf Hnl. rewrite process_kmz_upload_cases, Hp.
  rewrite (calculate_path_distance_features _ _ Hf).
  destruct (fold_each add_feature_length features 0%Q) as [t|e] eqn:Ht;
    [|reflexivity].
  apply fold_each_not_linear in Ht as ->; [reflexivity|exact Hnl].
Qed.

(** Lengths being non-negative, a distance that the block writes is
    strictly positive: after the block the distance field is the one the
    form bound or a positive number. *)
Theorem kmz_block_writes_only_positive_distance instance kmz_file d :
  (forall geom, 0 <= geom_length geom)%Q ->
  path_distance_km (process_kmz_upload instance kmz_file) = Some d ->
  path_distance_km instance = Some d \/ (0 < d)%Q.
Proof.
  intros Hlen. rewrite process_kmz_upload_cases.
  destruct (parse_kmz_file kmz_file) as [[g|] [[lat lon]|]]; auto.
  cbn [path_distance_km].
  destruct (calculate_path_distance g) as [d'|] eqn:Hd; auto.
  destruct (truthy (PNum d')) eqn:Ht; auto.
  intros [= Hdd]. subst d'. right.
  apply calculate_path_distance_nonneg in Hd; [|exact Hlen].
  apply Qle_lteq in Hd as [Hlt|Heq]; [exact Hlt|].
  simpl in Ht. apply negb_true_iff in Ht.
  symmetry in Heq. apply Qeq_bool_iff in Heq. congruence.
Qed.

(** Handling the same upload a second time changes nothing more. *)
Theorem upload_is_idempotent instance kmz_file :
  process_kmz_upload (process_kmz_upload instance kmz_file) kmz_file
  = process_kmz_upload instance kmz_file.
Proof.
  rewrite !process_kmz_upload_cases.
  destruct (parse_kmz_file kmz_file) as [[g|] [[lat lon]|]]; try reflexivity.
  cbn [path_distance_km].
  destruct (calculate_path_distance g) as [d|]; [|reflexivity].
  by destruct (truthy (PNum d)).
Qed.
End Upload.

Lemma kmz_block_changes_instance_only_with_coordinates_witness :
  exists geojson lat lon kml_data top geoms,
    parse_kmz_file (L := test_double) "kmz" = (Some geojson, Some (lat, lon))
    /\ parse_kml_data (L := test_double) kml_data
       = (Some geojson, Some (lat, lon))
    /\ KML_from_string (Libraries := test_double) kml_data = Return top
    /\ Forall2 (shaped (L := test_double))
               (flat_map placemarks_below top) geoms
    /\ flat_map extract_coordinates geoms <> [].
Proof.
  apply (kmz_block_changes_instance_only_with_coordinates (L := test_double)
           blank_path "kmz").
  intros Heq. apply (f_equal map_center_lat) in Heq.
  vm_compute in Heq. discriminate.
Defined.

Lemma upload_without_lines_keeps_bound_distance_witness :
  let bound := {| geojson_data := None; map_center_lat := None;
                  map_center_lon := None;
                  path_distance_km := Some (125 # 10) |} in
  let archive := fun _ : bytes =>
    Return [ {| filename := "points.kml"; member_data := Return "points" |} ] in
  let markup := fun _ : bytes =>
    Return [folder [placemark sf_point Missing Missing]] in
  exists geojson lat lon,
    parse_kmz_file (L := test_libraries markup archive) "points.kmz"
    = (Some geojson, Some (lat, lon))
    /\ process_kmz_upload (L := test_libraries markup archive)
         bound "points.kmz"
       = {| geojson_data := Some geojson;
            map_center_lat := Some lat;
            map_center_lon := Some lon;
            path_distance_km := Some (125 # 10) |}.
Proof.
  intros bound archive markup. eexists _, _, _. split; [reflexivity|].
  apply (upload_without_lines_keeps_bound_distance
           (L := test_libraries markup archive) bound "points.kmz" _ _ _
           [feature_dict (L := test_libraries markup archive)
              (placemark sf_point Missing Missing) sf_point]
           eq_refl eq_refl).
  intros feature geom Hin Hg. apply list_elem_of_singleton in Hin as ->.
  destruct Hg as (g & [= <-] & [= <-]). reflexivity.
Defined.

Lemma kmz_block_writes_only_positive_distance_witness :
  path_distance_km (process_kmz_upload (L := test_double) blank_path "kmz")
  = Some (100 # 100)
  /\ (path_distance_km blank_path = Some (100 # 100) \/ (0 < 100 # 100)%Q).
Proof.
  assert (Hd : path_distance_km
                 (process_kmz_upload (L := test_double) blank_path "kmz")
               = Some (100 # 100)).
  { vm_compute. reflexivity. }
  split; [exact Hd|].
  exact (kmz_block_writes_only_positive_distance (L := test_double)
           blank_path "kmz" _ test_double_length_nonneg Hd).
Defined.

(** ** The map views *)

Lemma truthy_PDict (g : gmap string PyVal) :
  truthy (PDict g) = true <-> g <> ∅.
Proof.
  simpl. rewrite negb_true_iff, bool_decide_eq_false. reflexivity.
Qed.

Lemma truthy_PNum (q : Q) : truthy (PNum q) = true <-> ~ (q == 0)%Q.
Proof.
  simpl. rewrite negb_true_iff, <- Qeq_bool_iff.
  destruct (Qeq_bool q 0); split; congruence.
Qed.

Section MapViews.
Context {R : MapLibrary}.


(** When folium raises while a map is due, the views do not fail and do
    not leave the map out: [map_html] is the paragraph that carries the
    text of the exception. *)
Theorem failed_rendering_is_shown instance g lat lon e :
  geojson_data (path_fields instance) = Some g -> g <> ∅ ->
  map_center_lat (path_fields instance) = Some lat -> ~ (lat == 0)%Q ->
  map_center_lon (path_fields instance) = Some lon -> ~ (lon == 0)%Q ->
  folium_html g (lat, lon) (map_zoom instance) = Raise e ->
  get_extra_context instance
  = Some ("<p>Error generating map: " +:+ exn_str e +:+ "</p>")
  /\ circuit_detail_tab (Some instance)
     = Some ("<p>Error generating map: " +:+ exn_str e +:+ "</p>").
Proof.
  intros Hg Hne Hlat Hlat0 Hlon Hlon0 Hf.
  apply truthy_PDict in Hne. apply truthy_PNum in Hlat0, Hlon0.
  unfold circuit_detail_tab, get_extra_context, generate_folium_map.
  rewrite Hg, Hlat, Hlon, Hne, Hlat0, Hlon0. cbn [andb]. by rewrite Hf.
Qed.
End MapViews.

Lemma failed_rendering_is_shown_witness :
  let instance :=
    {| path_fields :=
         {| geojson_data := Some {[ "invalid" := PStr "data" ]};
            map_center_lat := Some (377799 # 10000);
            map_center_lon := Some (-1224139 # 10000);
            path_distance_km := None |};
       map_zoom := 10 |} in
  get_extra_context (R := test_map) instance
  = Some "<p>Error generating map: 'features'</p>"
  /\ circuit_detail_tab (R := test_map) (Some instance)
     = Some "<p>Error generating map: 'features'</p>".
Proof.
  intros instance.
  apply (failed_rendering_is_shown (R := test_map) instance
           {[ "invalid" := PStr "data" ]}
           (377799 # 10000) (-1224139 # 10000) (KeyError "features")
           eq_refl).
  - apply map_non_empty_singleton.
  - reflexivity.
  - discriminate.
  - reflexivity.
  - discriminate.
  - reflexivity.
Defined.

(** ** A projection failure that does not raise *)

Section SilentFailure.
Context {L : Libraries}.

Lemma fold_each_returns features geoms :
  Forall2 feature_geometry features geoms ->
  Forall (fun geom =>
            is_linear geom = true -> exists p, transform geom = Return p)
         geoms ->
  forall total,
    exists total', fold_each add_feature_length features total = Return total'.
Proof.
  induction 1 as [|f geom features geoms Hf _ IH]; intros Hall total;
    simpl; [eauto|].
  inversion Hall as [|? ? Hgeom Hrest]; subst.
  rewrite (add_feature_length_shaped _ _ _ Hf).
  destruct (is_linear geom) eqn:Hl; [|apply IH, Hrest].
  destruct (Hgeom eq_refl) as [p ->]. apply IH, Hrest.
Qed.

(** C7: [calculate_path_distance] gives None only by way of an exception.
    Where the projection reports its failure in the coordinates it returns
    and does not raise (pyproj without [errcheck], on a coordinate outside
    the domain of the projection), [transform] returns for every linear
    geometry, and the result is then a number, not None. *)
Theorem unraised_projection_failure_returns_number geojson features geoms :
  geojson !! "features" = Some (PList features) ->
  Forall2 feature_geometry features geoms ->
  Forall (fun geom =>
            is_linear geom = true -> exists p, transform geom = Return p)
         geoms ->
  exists r, calculate_path_distance geojson = Some r.
Proof.
  intros Hf Hg Hall.
  rewrite (calculate_path_distance_features _ _ Hf).
  destruct (fold_each_returns _ _ Hg Hall 0%Q) as [total ->]. eauto.
Qed.
End SilentFailure.

Lemma unraised_projection_failure_returns_number_witness :
  exists r,
    calculate_path_distance (L := test_double) (collection [polar_feature])
    = Some r.
Proof.
  apply (unraised_projection_failure_returns_number (L := test_double)
           (collection [polar_feature]) [polar_feature] [polar_line] eq_refl).
  - repeat constructor. eexists. split; reflexivity.
  - repeat constructor. intros _. eexists. reflexivity.
Defined.
